(** * Reservation engine of the multi-seller raffle (RifaManager)

    Shallow embedding of [src/rifa_multivendedor.py], class [RifaManager]:
    the two worksheets ("ventas", "reservas") are lists of rows, every
    worksheet call can raise, and the methods are written in a small
    state-and-exception monad that follows the Python text line by line.

    Conventions.  Ticket numbers and instants are integers; every
    [datetime.now()] a method meets is a parameter of its model, so no
    relation between successive clock readings is assumed.  The rows are
    the ones the engine writes (an integer number, a well-formed expiry);
    the texts of the cells are ASCII.  A cell is stored as it was written
    and comes back from [get_all_records] through gspread's [numericise].
    A statement about a world [w] with [fallos w = []] is about a store
    whose calls all succeed; the statements about store failures carry
    their fault schedule explicitly. *)

From stdpp Require Import gmap strings list.
From Stdlib Require Import Ascii ZArith Lia.

(** ** Rows of the two worksheets *)

(** Header of "reservas": numero, vendedor, timestamp_reserva, expira_en.
    Instants ([datetime]) are integers (microseconds); the ISO text that the
    sheet stores and [datetime.fromisoformat] reads back is that integer. *)
Module Reserva.
Record t : Type := mk {
  numero : Z;
  vendedor : string;
  timestamp_reserva : Z;
  expira_en : Z
}.
End Reserva.

(** Header of "ventas": numero, comprador, telefono, vendedor, fecha_venta,
    timestamp.  [fecha_venta] and [timestamp] are two renderings of the same
    instant. *)
Module Venta.
Record t : Type := mk {
  numero : Z;
  comprador : string;
  telefono : string;
  vendedor : string;
  fecha_venta : Z;
  timestamp : Z
}.
End Venta.

#[global] Instance reserva_eq_dec : EqDecision Reserva.t.
Proof. solve_decision. Defined.

#[global] Instance venta_eq_dec : EqDecision Venta.t.
Proof. solve_decision. Defined.

(** ** The spreadsheet and the world around a call *)

(** The data rows of the two worksheets (the header row is row 1 of the
    sheet and is not part of the lists: data row [i] is sheet row [i + 2]). *)
Record Sheet : Type := mkSheet {
  ventas_worksheet : list Venta.t;
  reservas_worksheet : list Reserva.t
}.

Inductive Tabla : Type := TablaVentas | TablaReservas.

(** The writes a worksheet accepts. *)
Inductive Evento : Type :=
| AppendVenta (fila : Venta.t)
| AppendReserva (fila : Reserva.t)
| DeleteRows (tabla : Tabla) (row_num : nat).

(** [st.warning] calls of the two handlers that swallow an exception. *)
Inductive Aviso : Type :=
| ErrorLimpiandoReservas
| ErrorCancelandoReserva.

(** [fallos] is the fault schedule of the store: each worksheet call
    consumes one entry, [true] makes that call raise and leaves the sheet as
    it was; an exhausted schedule means every further call succeeds.
    [traza] records each accepted write with the sheet as it stood right
    after it, oldest first. *)
Record Mundo : Type := mkMundo {
  sheet : Sheet;
  fallos : list bool;
  traza : list (Evento * Sheet);
  avisos : list Aviso
}.

Definition mundo_inicial (s : Sheet) (fs : list bool) : Mundo :=
  mkMundo s fs [] [].

Definition sheet_vacia : Sheet := mkSheet [] [].

(** ** The monad: state plus exceptions *)

(** [None] is a raised exception; the world is threaded in both cases. *)
Definition M (A : Type) : Type := Mundo → option A * Mundo.

Definition ret {A} (a : A) : M A := λ w, (Some a, w).

Definition bind {A B} (m : M A) (k : A → M B) : M B :=
  λ w, match m w with
       | (Some a, w') => k a w'
       | (None, w') => (None, w')
       end.

(** [try: body except: handler]. *)
Definition try_except {A} (body handler : M A) : M A :=
  λ w, match body w with
       | (Some a, w') => (Some a, w')
       | (None, w') => handler w'
       end.

Notation "'let*' x ':=' m 'in' k" := (bind m (λ x, k))
  (at level 10, x name, m at level 100, k at level 200, only parsing).
Notation "m ';*' k" := (bind m (λ _, k))
  (at level 100, k at level 200, right associativity, only parsing).

Fixpoint for_each {A} (xs : list A) (body : A → M unit) : M unit :=
  match xs with
  | [] => ret tt
  | x :: rest => body x ;* for_each rest body
  end.

Definition st_warning (a : Aviso) : M unit :=
  λ w, (Some tt, mkMundo (sheet w) (fallos w) (traza w) (avisos w ++ [a])).

(** ** The worksheet calls (gspread) *)

(** One round trip to the store: raises when the schedule says so. *)
Definition llamada : M unit :=
  λ w, match fallos w with
       | [] => (Some tt, w)
       | falla :: fs =>
           let w' := mkMundo (sheet w) fs (traza w) (avisos w) in
           if falla : bool then (None, w') else (Some tt, w')
       end.

Definition escribir (e : Evento) (s : Sheet) : M unit :=
  λ w, (Some tt, mkMundo s (fallos w) (traza w ++ [(e, s)]) (avisos w)).

(** [get_all_records()]: one record per data row, in table order.  A
    record is kept as the row it was read from; what indexing it gives is
    the numericised cell: the number of a row the engine wrote is the
    integer it wrote, its expiry the instant it wrote, and its seller is
    [record_vendedor], defined below.  The engine looks at no other cell. *)
Definition ventas_get_all_records : M (list Venta.t) :=
  llamada ;* λ w, (Some (ventas_worksheet (sheet w)), w).

Definition reservas_get_all_records : M (list Reserva.t) :=
  llamada ;* λ w, (Some (reservas_worksheet (sheet w)), w).

Definition ventas_append_row (fila : Venta.t) : M unit :=
  llamada ;* λ w,
    escribir (AppendVenta fila)
      (mkSheet (ventas_worksheet (sheet w) ++ [fila])
               (reservas_worksheet (sheet w))) w.

Definition reservas_append_row (fila : Reserva.t) : M unit :=
  llamada ;* λ w,
    escribir (AppendReserva fila)
      (mkSheet (ventas_worksheet (sheet w))
               (reservas_worksheet (sheet w) ++ [fila])) w.

(** [delete_rows(row_num)] on "reservas": sheet row [row_num] is data row
    [row_num - 2]; a row past the data (or the header row) leaves the data
    rows as they are. *)
Definition borrar_fila {A} (row_num : nat) (filas : list A) : list A :=
  if decide (2 ≤ row_num) then delete (row_num - 2) filas else filas.

Definition reservas_delete_rows (row_num : nat) : M unit :=
  llamada ;* λ w,
    escribir (DeleteRows TablaReservas row_num)
      (mkSheet (ventas_worksheet (sheet w))
               (borrar_fila row_num (reservas_worksheet (sheet w)))) w.

(** ** Cells as [get_all_records] returns them *)

(** gspread reads the cells of a row as texts and passes each of them
    through [numericise]: a text that [int()] or [float()] accepts comes back
    as that number, any other text as the [str] it is.  A number is kept
    with the text it was read from (the code never compares two numbers). *)
Inductive Valor : Type :=
| VNum (texto : string)
| VStr (texto : string).

#[global] Instance valor_eq_dec : EqDecision Valor.
Proof. solve_decision. Defined.

(** The blanks [int()] and [float()] skip at both ends, and the decimal
    digits, in ASCII. *)
Definition es_blanco (c : ascii) : bool :=
  let n := nat_of_ascii c in
  ((9 <=? n) && (n <=? 13)) || (n =? 32).

Definition es_digito (c : ascii) : bool :=
  let n := nat_of_ascii c in (48 <=? n) && (n <=? 57).

Definition minuscula (c : ascii) : ascii :=
  let n := nat_of_ascii c in
  if (65 <=? n) && (n <=? 90) then ascii_of_nat (n + 32) else c.

Fixpoint sin_blancos (l : list ascii) : list ascii :=
  match l with
  | [] => []
  | c :: resto => if es_blanco c then sin_blancos resto else l
  end.

Fixpoint sin_digitos (l : list ascii) : list ascii :=
  match l with
  | [] => []
  | c :: resto => if es_digito c then sin_digitos resto else l
  end.

Definition strip (l : list ascii) : list ascii :=
  reverse (sin_blancos (reverse (sin_blancos l))).

Definition sin_signo (l : list ascii) : list ascii :=
  match l with
  | [] => []
  | c :: resto =>
      if bool_decide (c = "+"%char) || bool_decide (c = "-"%char)
      then resto else l
  end.

Definition sin_punto (l : list ascii) : list ascii :=
  match l with
  | [] => []
  | c :: resto => if bool_decide (c = "."%char) then resto else l
  end.

(** Digits with an optional point ("12", "1.", ".5", "1.5": one digit at
    least), then an optional exponent ("e" or "E", a sign, digits). *)
Definition es_decimal (l : list ascii) : bool :=
  let l1 := sin_digitos l in
  let l2 := sin_punto l1 in
  let l3 := sin_digitos l2 in
  (0 <? (length l - length l1) + (length l2 - length l3)) &&
  match l3 with
  | [] => true
  | c :: resto =>
      bool_decide (minuscula c = "e"%char) &&
      negb (bool_decide (sin_signo resto = [])) &&
      bool_decide (sin_digitos (sin_signo resto) = [])
  end.

(** The texts that [numericise] turns into a number: those [int()] or
    [float()] accepts, that is blanks around, a sign, and then a decimal
    numeral or one of "inf", "infinity", "nan" in any case.  (An integer
    numeral is a decimal one; a text with "_" is left as it is by
    [numericise], and no numeral here has one.) *)
Definition es_numerico (texto : string) : bool :=
  let l := sin_signo (strip (String.list_ascii_of_string texto)) in
  let minusculas := String.string_of_list_ascii (map minuscula l) in
  es_decimal l ||
  bool_decide (minusculas = "inf") || bool_decide (minusculas = "infinity") ||
  bool_decide (minusculas = "nan").

Definition numericise (texto : string) : Valor :=
  if es_numerico texto then VNum texto else VStr texto.

(** [record['vendedor']] for a record of "reservas" that
    [get_all_records] returned. *)
Definition record_vendedor (record : Reserva.t) : Valor :=
  numericise (Reserva.vendedor record).

(** ** RifaManager *)

(** The rows [i + 2] of the records with [now > expira], for
    [i, record in enumerate(records)] counted from [i]. *)
Fixpoint rows_to_delete_desde (now : Z) (i : nat) (records : list Reserva.t)
  : list nat :=
  match records with
  | [] => []
  | record :: rest =>
      if (now >? Reserva.expira_en record)%Z
      then (i + 2) :: rows_to_delete_desde now (S i) rest
      else rows_to_delete_desde now (S i) rest
  end.

Definition rows_to_delete (now : Z) (records : list Reserva.t) : list nat :=
  rows_to_delete_desde now 0 records.

Definition limpiar_reservas_expiradas (now : Z) : M unit :=
  try_except
    (let* records := reservas_get_all_records in
     for_each (reverse (rows_to_delete now records)) reservas_delete_rows)
    (st_warning ErrorLimpiandoReservas).

(** [{int(record['numero']): record for record in records if record['numero']}]:
    a row whose number is 0 is skipped, a later row replaces an earlier one
    with the same number. *)
Definition dict_por_numero {A} (numero : A → Z) (records : list A) : gmap Z A :=
  foldl (λ d record,
           if (numero record =? 0)%Z then d
           else <[numero record := record]> d) ∅ records.

Definition dict_ventas : list Venta.t → gmap Z Venta.t :=
  dict_por_numero Venta.numero.

Definition dict_reservas : list Reserva.t → gmap Z Reserva.t :=
  dict_por_numero Reserva.numero.

Definition obtener_numeros_vendidos : M (gmap Z Venta.t) :=
  try_except
    (let* records := ventas_get_all_records in
     ret (dict_ventas records))
    (ret ∅).

Definition obtener_numeros_reservados (now : Z) : M (gmap Z Reserva.t) :=
  try_except
    (limpiar_reservas_expiradas now ;*
     let* records := reservas_get_all_records in
     ret (dict_reservas records))
    (ret ∅).

(** The texts of the second component of the results. *)
Inductive Mensaje : Type :=
| NumeroYaVendido                          (* "Número ya vendido" *)
| NumeroReservadoPor (vendedor : Valor)    (* f"Número reservado por {...}" *)
| NumeroReservadoExitosamente              (* "Número reservado exitosamente" *)
| ErrorReservando                          (* f"Error reservando: {e}" *)
| NumeroNoEstaReservado                    (* "Número no está reservado" *)
| NoTienesLaReserva                        (* "No tienes la reserva de este número" *)
| VentaConfirmadaExitosamente              (* "Venta confirmada exitosamente" *)
| ErrorConfirmandoVenta.                   (* f"Error confirmando venta: {e}" *)

(** [timedelta(minutes=minutos)] in microseconds. *)
Definition timedelta_minutes (minutos : Z) : Z := (minutos * 60000000)%Z.

(** [now_limpieza] is the clock read inside [limpiar_reservas_expiradas],
    [now] the one of the method's own [datetime.now()]. *)
Definition reservar_numero (numero : Z) (vendedor : string) (minutos : Z)
    (now_limpieza now : Z) : M (bool * Mensaje) :=
  try_except
    (let* vendidos := obtener_numeros_vendidos in
     let* reservados := obtener_numeros_reservados now_limpieza in
     match vendidos !! numero with
     | Some _ => ret (false, NumeroYaVendido)
     | None =>
         match reservados !! numero with
         | Some reserva =>
             ret (false, NumeroReservadoPor (record_vendedor reserva))
         | None =>
             let expira := (now + timedelta_minutes minutos)%Z in
             reservas_append_row (Reserva.mk numero vendedor now expira) ;*
             ret (true, NumeroReservadoExitosamente)
         end
     end)
    (ret (false, ErrorReservando)).

(** The index of the first record whose number and seller both equal the
    arguments ([vendedor] is a [str]). *)
Fixpoint buscar_reserva (numero : Z) (vendedor : string) (i : nat)
    (records : list Reserva.t) : option nat :=
  match records with
  | [] => None
  | record :: rest =>
      if bool_decide (Reserva.numero record = numero) &&
         bool_decide (record_vendedor record = VStr vendedor)
      then Some i
      else buscar_reserva numero vendedor (S i) rest
  end.

Definition cancelar_reserva (numero : Z) (vendedor : string) : M unit :=
  try_except
    (let* records := reservas_get_all_records in
     match buscar_reserva numero vendedor 0 records with
     | Some i => reservas_delete_rows (i + 2)
     | None => ret tt
     end)
    (st_warning ErrorCancelandoReserva).

Definition confirmar_venta (numero : Z) (comprador telefono vendedor : string)
    (now_limpieza now : Z) : M (bool * Mensaje) :=
  try_except
    (let* reservados := obtener_numeros_reservados now_limpieza in
     match reservados !! numero with
     | None => ret (false, NumeroNoEstaReservado)
     | Some reserva =>
         if bool_decide (record_vendedor reserva ≠ VStr vendedor)
         then ret (false, NoTienesLaReserva)
         else
           ventas_append_row
             (Venta.mk numero comprador telefono vendedor now now) ;*
           cancelar_reserva numero vendedor ;*
           ret (true, VentaConfirmadaExitosamente)
     end)
    (ret (false, ErrorConfirmandoVenta)).

(** ** The page: reading the data and colouring one number *)

(** Lines 240-241: the two mappings every page run starts from. *)
Definition obtener_datos (now : Z) : M (gmap Z Venta.t * gmap Z Reserva.t) :=
  let* numeros_vendidos := obtener_numeros_vendidos in
  let* numeros_reservados := obtener_numeros_reservados now in
  ret (numeros_vendidos, numeros_reservados).

Inductive Estado : Type :=
| Vendido (info : Venta.t)
| Reservado (info : Reserva.t)
| Disponible.

(** The [if / elif / else] of [mostrar_grilla_numeros] for one [numero]. *)
Definition mostrar_grilla_numero (numeros_vendidos : gmap Z Venta.t)
    (numeros_reservados : gmap Z Reserva.t) (numero : Z) : Estado :=
  match numeros_vendidos !! numero with
  | Some info => Vendido info
  | None =>
      match numeros_reservados !! numero with
      | Some info => Reservado info
      | None => Disponible
      end
  end.

(** * Vocabulary of the properties *)

(** The rows of a table that carry number [n], in table order. *)
Definition filas_de {A} (numero : A → Z) (n : Z) (records : list A) : list A :=
  filter (λ record, numero record = n) records.

(** A reservation the sweep keeps: [now > expira] is false. *)
Definition vigente (now : Z) (r : Reserva.t) : Prop :=
  (now ≤ Reserva.expira_en r)%Z.

#[global] Instance vigente_dec now r : Decision (vigente now r).
Proof. unfold vigente. apply _. Defined.

(** The sheet after [delete_rows(row_num)] on "reservas" was accepted. *)
Definition borrar_en (s : Sheet) (row_num : nat) : Sheet :=
  mkSheet (ventas_worksheet s) (borrar_fila row_num (reservas_worksheet s)).

(** The sheet after the deletions of [rows], in that order, were accepted,
    and what they add to the trace. *)
Definition tras_borrados (s : Sheet) (rows : list nat) : Sheet :=
  foldl borrar_en s rows.

Fixpoint traza_borrados (s : Sheet) (rows : list nat) : list (Evento * Sheet) :=
  match rows with
  | [] => []
  | row_num :: rest =>
      (DeleteRows TablaReservas row_num, borrar_en s row_num)
        :: traza_borrados (borrar_en s row_num) rest
  end.

(** The sheet a completed sweep leaves. *)
Definition limpia (now : Z) (s : Sheet) : Sheet :=
  tras_borrados s (reverse (rows_to_delete now (reservas_worksheet s))).

(** [s'] is [s] with some expired reservations removed and nothing else
    changed. *)
Definition conserva (now : Z) (s s' : Sheet) : Prop :=
  ventas_worksheet s' = ventas_worksheet s ∧
  filter (vigente now) (reservas_worksheet s') =
    filter (vigente now) (reservas_worksheet s) ∧
  reservas_worksheet s' `sublist_of` reservas_worksheet s.

(** What a sweep adds to the trace: deletions on "reservas" only, each
    leaving the sales and the reservations in force as they were. *)
Definition solo_borra_expiradas (now : Z) (s : Sheet)
    (tr : list (Evento * Sheet)) : Prop :=
  ∀ es, es ∈ tr →
    (∃ row_num, es.1 = DeleteRows TablaReservas row_num) ∧ conserva now s es.2.

(** The trace of a completed sweep. *)
Definition traza_limpieza (now : Z) (s : Sheet) : list (Evento * Sheet) :=
  traza_borrados s (reverse (rows_to_delete now (reservas_worksheet s))).

(** The row [reservar_numero] appends. *)
Definition nueva_reserva (numero : Z) (vendedor : string) (minutos now : Z)
  : Reserva.t :=
  Reserva.mk numero vendedor now (now + timedelta_minutes minutos)%Z.

(** The sheet after [append_row] on "reservas", and on "ventas". *)
Definition con_reserva (s : Sheet) (fila : Reserva.t) : Sheet :=
  mkSheet (ventas_worksheet s) (reservas_worksheet s ++ [fila]).

Definition con_venta (s : Sheet) (fila : Venta.t) : Sheet :=
  mkSheet (ventas_worksheet s ++ [fila]) (reservas_worksheet s).

(** The test of [cancelar_reserva] on a record: its number is [numero] and
    its seller cell reads back as the [str] [vendedor]. *)
Definition coincide (numero : Z) (vendedor : string) (record : Reserva.t)
  : Prop :=
  Reserva.numero record = numero ∧ record_vendedor record = VStr vendedor.

(** [s'] is [s] without the first reservation row, in table order, whose
    number is [numero] and whose seller cell holds the text [vendedor]; that
    row is row [row_num] of the worksheet.  The sales are the same. *)
Definition sin_primera (numero : Z) (vendedor : string) (s s' : Sheet)
    (row_num : nat) : Prop :=
  ventas_worksheet s' = ventas_worksheet s ∧
  ∃ l1 r l2,
    reservas_worksheet s = l1 ++ r :: l2 ∧
    reservas_worksheet s' = l1 ++ l2 ∧
    row_num = length l1 + 2 ∧
    Reserva.numero r = numero ∧ Reserva.vendedor r = vendedor ∧
    ∀ r', r' ∈ l1 →
      ¬ (Reserva.numero r' = numero ∧ Reserva.vendedor r' = vendedor).

(** The sheet after a [cancelar_reserva] whose calls were accepted, and the
    write it made. *)
Definition cancelada (numero : Z) (vendedor : string) (s : Sheet) : Sheet :=
  match buscar_reserva numero vendedor 0 (reservas_worksheet s) with
  | Some i => borrar_en s (i + 2)
  | None => s
  end.

Definition traza_cancelar (numero : Z) (vendedor : string) (s : Sheet)
  : list (Evento * Sheet) :=
  match buscar_reserva numero vendedor 0 (reservas_worksheet s) with
  | Some i => [(DeleteRows TablaReservas (i + 2), borrar_en s (i + 2))]
  | None => []
  end.

(** The row [confirmar_venta] appends. *)
Definition nueva_venta (numero : Z) (comprador telefono vendedor : string)
    (now : Z) : Venta.t :=
  Venta.mk numero comprador telefono vendedor now now.

(** One call of a method of the engine, with its arguments and the clock
    readings it meets. *)
Inductive Operacion : Type :=
| Reservar (numero : Z) (vendedor : string) (minutos now_limpieza now : Z)
| Confirmar (numero : Z) (comprador telefono vendedor : string)
    (now_limpieza now : Z)
| Cancelar (numero : Z) (vendedor : string)
| Limpiar (now : Z).

(** The world after one call (the caller drops or shows the result). *)
Definition ejecutar (op : Operacion) (w : Mundo) : Mundo :=
  match op with
  | Reservar numero vendedor minutos now_limpieza now =>
      (reservar_numero numero vendedor minutos now_limpieza now w).2
  | Confirmar numero comprador telefono vendedor now_limpieza now =>
      (confirmar_venta numero comprador telefono vendedor now_limpieza now w).2
  | Cancelar numero vendedor => (cancelar_reserva numero vendedor w).2
  | Limpiar now => (limpiar_reservas_expiradas now w).2
  end.

(** The calls of [ops] one after the other, each run to its end. *)
Definition ejecutar_todas (ops : list Operacion) (w : Mundo) : Mundo :=
  foldl (λ w op, ejecutar op w) w ops.

(** The sale rows and the reservation rows of number [n]. *)
Definition ventas_de (n : Z) (s : Sheet) : list Venta.t :=
  filas_de Venta.numero n (ventas_worksheet s).

Definition reservas_de (n : Z) (s : Sheet) : list Reserva.t :=
  filas_de Reserva.numero n (reservas_worksheet s).

(** A number other than 0 has at most one row over both tables, and no sale
    carries number 0. *)
Definition una_fila_por_numero (s : Sheet) : Prop :=
  (∀ n, n ≠ 0%Z → length (ventas_de n s) + length (reservas_de n s) ≤ 1) ∧
  ventas_de 0 s = [].

(** The call wrote nothing but the deletions of its sweep: the sales are as
    they were and the reservations are the ones in force at the sweep. *)
Definition solo_limpio (now : Z) (w w' : Mundo) : Prop :=
  ventas_worksheet (sheet w') = ventas_worksheet (sheet w) ∧
  reservas_worksheet (sheet w') =
    filter (vigente now) (reservas_worksheet (sheet w)) ∧
  ∃ tr', traza w' = traza w ++ tr' ∧ solo_borra_expiradas now (sheet w) tr'.

(** Small worlds used as concrete inputs: number 7 sold by "A"; number 7
    reserved by "A" at instant 0 for five minutes; number 7 with a
    reservation by "A" that expires at instant 100.  No store faults. *)
Definition mundo_vendido_7 : Mundo :=
  mundo_inicial (mkSheet [nueva_venta 7 "X" "555" "A" 1] []) [].

Definition mundo_reservado_7 : Mundo :=
  mundo_inicial (mkSheet [] [nueva_reserva 7 "A" 5 0]) [].

Definition mundo_expirado_7 : Mundo :=
  mundo_inicial (mkSheet [] [Reserva.mk 7 "A" 0 100]) [].

(** The state of one number as a page run computes it: the two mappings of
    lines 240-241, then the branch of the grid. *)
Definition clasificar (now numero : Z) : M Estado :=
  let* datos := obtener_datos now in
  ret (mostrar_grilla_numero datos.1 datos.2 numero).



(** Number 7 reserved by "A"; the sweep's read, the getter's read and the
    append of the sale are accepted, the read inside [cancelar_reserva]
    raises. *)
Definition mundo_reservado_7_sin_borrado : Mundo :=
  mundo_inicial (mkSheet [] [nueva_reserva 7 "A" 5 0])
    [false; false; false; true].

(** * Further concrete worlds *)

(** Three reservations, of which the first and the third have expired by
    instant 100. *)
Definition mundo_dos_expiradas : Mundo :=
  mundo_inicial
    (mkSheet []
       [Reserva.mk 3 "A" 0 50; Reserva.mk 4 "B" 0 500; Reserva.mk 5 "C" 0 60])
    [].

(** A "ventas" table with two rows for number 7 and a row with number 0. *)
Definition mundo_ventas_repetidas : Mundo :=
  mundo_inicial
    (mkSheet [nueva_venta 7 "X" "555" "A" 1; nueva_venta 0 "Z" "000" "C" 2;
              nueva_venta 7 "Y" "556" "B" 3] []) [].

(** * The page script *)

(** ** Sidebar statistics and the numbers on offer *)

(** Lines 245-247: the three counts of the sidebar. *)
Definition vendidos_count (numeros_vendidos : gmap Z Venta.t) : Z :=
  Z.of_nat (size numeros_vendidos).

Definition reservados_count (numeros_reservados : gmap Z Reserva.t) : Z :=
  Z.of_nat (size numeros_reservados).

Definition disponibles_count (numeros_vendidos : gmap Z Venta.t)
    (numeros_reservados : gmap Z Reserva.t) : Z :=
  (100 - vendidos_count numeros_vendidos
       - reservados_count numeros_reservados)%Z.

(** Lines 347-350 of [proceso_venta]: the numbers [i] of [range(1, 101)] with
    [i not in numeros_vendidos and i not in numeros_reservados]. *)
Definition numeros_disponibles (numeros_vendidos : gmap Z Venta.t)
    (numeros_reservados : gmap Z Reserva.t) : list Z :=
  filter (λ i, numeros_vendidos !! i = None ∧ numeros_reservados !! i = None)
    (seqZ 1 100).

(** Lines 282-283 of [mostrar_grilla_numeros]: the cells [numero = i + 1] for
    [i in range(100)], each with the branch taken for it. *)
Definition grilla (numeros_vendidos : gmap Z Venta.t)
    (numeros_reservados : gmap Z Reserva.t) : list (Z * Estado) :=
  map (λ i, let numero := (Z.of_nat i + 1)%Z in
            (numero, mostrar_grilla_numero numeros_vendidos numeros_reservados
                       numero))
    (seq 0 100).

#[global] Instance estado_eq_dec : EqDecision Estado.
Proof. solve_decision. Defined.

(** ** Session state and the widgets of a run *)

(** [st.session_state], lines 201-208. *)
Record SessionState : Type := mkSessionState {
  ss_vendedor : string;
  ultima_actualizacion : Z;
  numero_reservado : option Z;
  tiempo_reserva : option Z
}.

Definition con_numero_reservado (ss : SessionState) (n : option Z)
  : SessionState :=
  mkSessionState (ss_vendedor ss) (ultima_actualizacion ss) n (tiempo_reserva ss).

(** [if st.session_state.numero_reservado:] -- [None] and 0 are falsy. *)
Definition numero_reservado_activo (ss : SessionState) : option Z :=
  match numero_reservado ss with
  | Some numero => if (numero =? 0)%Z then None else Some numero
  | None => None
  end.

(** What a run puts on the screen. *)
Inductive Cartel : Type :=
| WarningIngresaNombre           (* "Ingresa tu nombre en la barra lateral primero." *)
| ErrorNoHayDisponibles          (* "No hay números disponibles" *)
| Success (m : Mensaje)          (* st.success(message) *)
| Error (m : Mensaje)            (* st.error(message) *)
| ErrorCompletaCampos            (* "Completa todos los campos" *)
| InfoReservaCancelada           (* "Reserva cancelada" *)
| WarningTienesReservado (numero restante : Z).
                                 (* sidebar: "Tienes reservado el #..." *)

(** The values the widgets of [proceso_venta] return in one run: the option
    picked in the select box and the "Reservar" button (step 1), the two text
    inputs and the two submit buttons of the form (step 2). *)
Record Formulario : Type := mkFormulario {
  numero_elegido : Z;
  boton_reservar : bool;
  nombre_comprador : string;
  telefono : string;
  confirmar : bool;
  cancelar : bool
}.

(** The outcome of a piece of the script: the session, the messages shown,
    and whether [st.rerun()] ended the run there. *)
Record Corrida : Type := mkCorrida {
  sesion : SessionState;
  carteles : list Cartel;
  rerun : bool
}.

(** Truthiness of a string. *)
Definition no_vacio (s : string) : bool := negb (bool_decide (s = "")).

(** Step 1 of [proceso_venta], lines 344-371. *)
Definition paso_reservar (vendedor : string)
    (numeros_vendidos : gmap Z Venta.t) (numeros_reservados : gmap Z Reserva.t)
    (f : Formulario) (now_limpieza now : Z) (ss : SessionState) : M Corrida :=
  match numeros_disponibles numeros_vendidos numeros_reservados with
  | [] => ret (mkCorrida ss [ErrorNoHayDisponibles] false)
  | _ :: _ =>
      if boton_reservar f then
        let* resultado :=
          reservar_numero (numero_elegido f) vendedor 5 now_limpieza now in
        if resultado.1 : bool then
          ret (mkCorrida (con_numero_reservado ss (Some (numero_elegido f)))
                 [Success resultado.2] true)
        else ret (mkCorrida ss [Error resultado.2] true)
      else ret (mkCorrida ss [] false)
  end.

(** Step 2 of [proceso_venta], lines 374-413, for the number the session
    holds. *)
Definition paso_confirmar (vendedor : string) (numero : Z) (f : Formulario)
    (now_limpieza now : Z) (ss : SessionState) : M Corrida :=
  let* tras_confirmar :=
    (if confirmar f then
       if no_vacio (nombre_comprador f) && no_vacio (telefono f) then
         let* resultado :=
           confirmar_venta numero (nombre_comprador f) (telefono f) vendedor
             now_limpieza now in
         if resultado.1 : bool then
           ret (mkCorrida (con_numero_reservado ss None)
                  [Success resultado.2] true)
         else ret (mkCorrida ss [Error resultado.2] false)
       else ret (mkCorrida ss [ErrorCompletaCampos] false)
     else ret (mkCorrida ss [] false)) in
  if rerun tras_confirmar then ret tras_confirmar
  else if cancelar f then
    cancelar_reserva numero vendedor ;*
    ret (mkCorrida (con_numero_reservado (sesion tras_confirmar) None)
           (carteles tras_confirmar ++ [InfoReservaCancelada]) true)
  else ret tras_confirmar.

(** [proceso_venta], lines 336-413. *)
Definition proceso_venta (vendedor : string)
    (numeros_vendidos : gmap Z Venta.t) (numeros_reservados : gmap Z Reserva.t)
    (f : Formulario) (now_limpieza now : Z) (ss : SessionState) : M Corrida :=
  if no_vacio vendedor then
    match numero_reservado_activo ss with
    | None =>
        paso_reservar vendedor numeros_vendidos numeros_reservados f
          now_limpieza now ss
    | Some numero => paso_confirmar vendedor numero f now_limpieza now ss
    end
  else ret (mkCorrida ss [WarningIngresaNombre] false).

(** Lines 258-268: the sidebar note on the session's reservation. *)
Definition info_reserva_actual (vendedor : string)
    (numeros_reservados : gmap Z Reserva.t) (now : Z) (ss : SessionState)
  : SessionState * list Cartel :=
  match numero_reservado_activo ss with
  | None => (ss, [])
  | Some numero =>
      match numeros_reservados !! numero with
      | Some reserva_info =>
          if bool_decide (record_vendedor reserva_info = VStr vendedor) then
            let tiempo_restante := (Reserva.expira_en reserva_info - now)%Z in
            if (tiempo_restante >? 0)%Z
            then (ss, [WarningTienesReservado numero tiempo_restante])
            else (con_numero_reservado ss None, [])
          else (ss, [])
      | None => (ss, [])
      end
  end.

(** [timedelta.seconds]: the seconds field of a normalised [timedelta] of
    [d] microseconds (days, then seconds below a day, then microseconds). *)
Definition timedelta_seconds (d : Z) : Z := ((d mod 86400000000) / 1000000)%Z.

(** Lines 232-237: the auto-refresh check; [now] and [now'] are its two clock
    readings. *)
Definition auto_actualizar (auto_refresh : bool) (now now' : Z)
    (ss : SessionState) : SessionState * bool :=
  if auto_refresh then
    if (timedelta_seconds (now - ultima_actualizacion ss) >? 30)%Z
    then (mkSessionState (ss_vendedor ss) now' (numero_reservado ss)
            (tiempo_reserva ss), true)
    else (ss, false)
  else (ss, false).

(** One run of the page from the reading of the data on (lines 240-241,
    258-268, then the "Vender" tab): [now_datos] is the clock of the sweep
    inside the getter, [now_info] the one of the sidebar note. *)
Definition corrida_pagina (vendedor : string) (f : Formulario)
    (now_datos now_info now_limpieza now : Z) (ss : SessionState) : M Corrida :=
  let* datos := obtener_datos now_datos in
  let info := info_reserva_actual vendedor datos.2 now_info ss in
  let* c := proceso_venta vendedor datos.1 datos.2 f now_limpieza now info.1 in
  ret (mkCorrida (sesion c) (info.2 ++ carteles c) (rerun c)).

(** ** Sheets and calls that only carry ticket numbers of 1..100 *)

Definition en_rango (s : Sheet) : Prop :=
  (∀ v, v ∈ ventas_worksheet s → (1 ≤ Venta.numero v ≤ 100)%Z) ∧
  (∀ r, r ∈ reservas_worksheet s → (1 ≤ Reserva.numero r ≤ 100)%Z).

(** The select box only offers numbers of 1..100 to [reservar_numero]; the
    other methods take any argument. *)
Definition operacion_en_rango (op : Operacion) : Prop :=
  match op with
  | Reservar numero _ _ _ _ => (1 ≤ numero ≤ 100)%Z
  | _ => True
  end.

(** ** Concrete sessions and forms *)

(** Step 1 with number 7 picked and "Reservar" pressed. *)
Definition formulario_reservar_7 : Formulario :=
  mkFormulario 7 true "" "" false false.

(** The session state as lines 201-208 initialise it (clock reading 0). *)
Definition sesion_inicial : SessionState := mkSessionState "" 0 None None.

(** The session of seller "A" holding number 7. *)
Definition sesion_con_7 : SessionState := mkSessionState "A" 0 (Some 7%Z) None.

(** Step 2 with buyer "X", telephone "555" and "Confirmar" pressed. *)
Definition formulario_confirmar : Formulario :=
  mkFormulario 1 false "X" "555" true false.

(** Number 7 with a sale row and, still in force, a reservation by "A". *)
Definition mundo_vendido_y_reservado_7 : Mundo :=
  mundo_inicial
    (mkSheet [nueva_venta 7 "X" "555" "B" 5] [nueva_reserva 7 "A" 5 0]) [].

(** * Properties *)

(** ** The seller cell as it is read back *)



(** The value read from a cell is the [str] [vendedor] exactly when the
    cell holds that text and the text is not a numeral. *)
Lemma numericise_eq_VStr texto vendedor :
  numericise texto = VStr vendedor ↔
  texto = vendedor ∧ es_numerico vendedor = false.
Proof.
  unfold numericise. destruct (es_numerico texto) eqn:E; split.
  - done.
  - intros [<- H]. congruence.
  - by intros [= <-].
  - by intros [<- _].
Qed.

Lemma record_vendedor_VStr r vendedor :
  record_vendedor r = VStr vendedor ↔
  Reserva.vendedor r = vendedor ∧ es_numerico vendedor = false.
Proof. apply numericise_eq_VStr. Qed.

Lemma numericise_inj texto1 texto2 :
  numericise texto1 = numericise texto2 → texto1 = texto2.
Proof.
  unfold numericise.
  destruct (es_numerico texto1), (es_numerico texto2); congruence.
Qed.

(** ** Rows with a given number, and what the mappings report *)

Section PorNumero.
Context {A : Type} (numero : A → Z).

Lemma filas_de_app n l1 l2 :
  filas_de numero n (l1 ++ l2) = filas_de numero n l1 ++ filas_de numero n l2.
Proof. apply filter_app. Qed.

Lemma filas_de_snoc_eq n l x :
  numero x = n → filas_de numero n (l ++ [x]) = filas_de numero n l ++ [x].
Proof.
  intros Hx. rewrite filas_de_app. f_equal.
  unfold filas_de. rewrite filter_cons, decide_True by done. done.
Qed.

Lemma filas_de_snoc_ne n l x :
  numero x ≠ n → filas_de numero n (l ++ [x]) = filas_de numero n l.
Proof.
  intros Hx. rewrite filas_de_app.
  unfold filas_de at 2. rewrite filter_cons, decide_False by done.
  rewrite filter_nil. apply app_nil_r.
Qed.

Lemma filas_de_medio_length n l1 x l2 :
  length (filas_de numero n (l1 ++ x :: l2)) =
  length (filas_de numero n (l1 ++ l2)) + (if decide (numero x = n) then 1 else 0).
Proof.
  rewrite !filas_de_app, !length_app. unfold filas_de at 2.
  rewrite filter_cons. case_decide; simpl; unfold filas_de; lia.
Qed.

Lemma dict_por_numero_snoc l x :
  dict_por_numero numero (l ++ [x]) =
  if (numero x =? 0)%Z then dict_por_numero numero l
  else <[numero x := x]> (dict_por_numero numero l).
Proof. unfold dict_por_numero. by rewrite foldl_app. Qed.

(** The mapping holds, for a number other than 0, the last row with that
    number; number 0 is never a key. *)
Lemma dict_por_numero_lookup l n :
  dict_por_numero numero l !! n =
  if decide (n = 0%Z) then None else last (filas_de numero n l).
Proof.
  induction l as [|x l IH] using rev_ind.
  - case_decide; done.
  - rewrite dict_por_numero_snoc.
    destruct (Z.eqb_spec (numero x) 0) as [H0|H0].
    + rewrite IH. case_decide; [done|].
      rewrite filas_de_snoc_ne by congruence. done.
    + destruct (decide (numero x = n)) as [Heq|Hne]; [subst n|].
      * rewrite lookup_insert_eq, decide_False by done.
        rewrite filas_de_snoc_eq by done. by rewrite last_snoc.
      * rewrite lookup_insert_ne by done. rewrite IH.
        by rewrite filas_de_snoc_ne.
Qed.

Lemma dict_por_numero_Some l n r :
  dict_por_numero numero l !! n = Some r →
  n ≠ 0%Z ∧ numero r = n ∧ r ∈ l.
Proof.
  rewrite dict_por_numero_lookup. case_decide; [done|].
  intros Hl. apply last_Some_elem_of in Hl.
  apply list_elem_of_filter in Hl. destruct Hl as [? ?]. done.
Qed.

Lemma dict_por_numero_None l n :
  n ≠ 0%Z → dict_por_numero numero l !! n = None → filas_de numero n l = [].
Proof.
  intros Hn. rewrite dict_por_numero_lookup, decide_False by done.
  apply last_None.
Qed.

Lemma dict_por_numero_is_Some l n r :
  n ≠ 0%Z → r ∈ l → numero r = n →
  is_Some (dict_por_numero numero l !! n).
Proof.
  intros Hn Hr Hnum.
  rewrite dict_por_numero_lookup, decide_False by done.
  apply last_is_Some. intros Hnil.
  eapply (filter_nil_not_elem_of _ l r); eauto.
Qed.

Lemma dict_por_numero_0 l : dict_por_numero numero l !! 0%Z = None.
Proof. by rewrite dict_por_numero_lookup. Qed.
End PorNumero.

(** ** Deleting rows, and the sweep of expired reservations *)

Lemma gtb_false_vigente now r :
  (now >? Reserva.expira_en r)%Z = false ↔ vigente now r.
Proof. unfold vigente. rewrite Z.gtb_ltb, Z.ltb_ge. done. Qed.

Lemma gtb_true_vigente now r :
  (now >? Reserva.expira_en r)%Z = true ↔ ¬ vigente now r.
Proof. unfold vigente. rewrite Z.gtb_ltb, Z.ltb_lt. lia. Qed.

Lemma conserva_refl now s : conserva now s s.
Proof. by repeat split. Qed.

Lemma conserva_trans now s1 s2 s3 :
  conserva now s1 s2 → conserva now s2 s3 → conserva now s1 s3.
Proof.
  intros (?&?&?) (?&?&?). repeat split; try congruence. by etrans.
Qed.

Lemma tras_borrados_app s rows1 rows2 :
  tras_borrados s (rows1 ++ rows2) =
  tras_borrados (tras_borrados s rows1) rows2.
Proof. apply foldl_app. Qed.

Lemma rows_to_delete_desde_cons now i record rest :
  rows_to_delete_desde now i (record :: rest) =
  (if (now >? Reserva.expira_en record)%Z then [i + 2] else [])
    ++ rows_to_delete_desde now (S i) rest.
Proof. simpl. by destruct (now >? _)%Z. Qed.

(** Going through the rows to delete from the back, any number [k] of
    accepted deletions has removed expired rows of the tail only; once all
    are done exactly the rows the sweep keeps are left. *)
Lemma tras_borrados_prefijo now v (l2 : list Reserva.t) : ∀ (l1 : list Reserva.t) k,
  ∃ l2',
    tras_borrados (mkSheet v (l1 ++ l2))
      (take k (reverse (rows_to_delete_desde now (length l1) l2)))
    = mkSheet v (l1 ++ l2') ∧
    filter (vigente now) l2' = filter (vigente now) l2 ∧
    l2' `sublist_of` l2 ∧
    (length (rows_to_delete_desde now (length l1) l2) ≤ k →
     l2' = filter (vigente now) l2).
Proof.
  induction l2 as [|x l2 IH]; intros l1 k.
  - exists []. simpl. destruct k; done.
  - rewrite rows_to_delete_desde_cons, reverse_app, take_app, tras_borrados_app.
    destruct (IH (l1 ++ [x]) k) as (l2'' & Hs & Hf & Hsub & Hfull).
    rewrite length_app in Hs, Hfull. simpl in Hs, Hfull.
    replace (length l1 + 1) with (S (length l1)) in Hs, Hfull by lia.
    rewrite <- !app_assoc in Hs. simpl in Hs. rewrite Hs.
    rewrite length_app.
    destruct (now >? Reserva.expira_en x)%Z eqn:Hx.
    + apply gtb_true_vigente in Hx.
      destruct (decide (k ≤ length (rows_to_delete_desde now (S (length l1)) l2)))
        as [Hk|Hk].
      * replace (k - _) with 0 by (rewrite length_reverse; lia). simpl.
        exists (x :: l2''). split; [done|].
        rewrite !filter_cons, !decide_False by done.
        split; [done|]. split; [by apply sublist_skip|].
        intros Hlen. simpl in Hlen. exfalso. clear -Hk Hlen. lia.
      * rewrite take_ge by (rewrite !length_reverse; simpl; lia). simpl.
        exists l2''. unfold borrar_en, borrar_fila. simpl.
        rewrite decide_True by lia.
        replace (length l1 + 2 - 2) with (length l1) by lia.
        rewrite delete_middle. split; [done|].
        rewrite filter_cons, decide_False by done.
        split; [done|]. split; [by apply sublist_cons|].
        intros _. apply Hfull. lia.
    + apply gtb_false_vigente in Hx. rewrite reverse_nil, take_nil. simpl.
      exists (x :: l2''). split; [done|].
      rewrite !filter_cons, !decide_True by done.
      split; [by f_equal|]. split; [by apply sublist_skip|].
      intros Hk. f_equal. apply Hfull. lia.
Qed.

Lemma tras_borrados_conserva now s k :
  conserva now s
    (tras_borrados s (take k (reverse (rows_to_delete now (reservas_worksheet s))))).
Proof.
  destruct s as [v l].
  destruct (tras_borrados_prefijo now v l [] k) as (l' & Hs & Hf & Hsub & _).
  simpl in *. unfold rows_to_delete. simpl. rewrite Hs. by repeat split.
Qed.

Lemma limpia_filter now s :
  limpia now s =
  mkSheet (ventas_worksheet s) (filter (vigente now) (reservas_worksheet s)).
Proof.
  destruct s as [v l]. unfold limpia, rows_to_delete. simpl.
  destruct (tras_borrados_prefijo now v l []
              (length (rows_to_delete_desde now 0 l)))
    as (l' & Hs & _ & _ & Hfull).
  simpl in *. rewrite take_ge in Hs by (rewrite length_reverse; lia).
  rewrite Hs, Hfull; done.
Qed.

(** ** The worksheet calls and the methods, step by step *)

Ltac desplegar :=
  unfold ventas_get_all_records, reservas_get_all_records, ventas_append_row,
    reservas_append_row, reservas_delete_rows, st_warning, escribir, llamada,
    bind, try_except, ret; simpl.

Lemma traza_borrados_app s rows1 rows2 :
  traza_borrados s (rows1 ++ rows2) =
  traza_borrados s rows1 ++ traza_borrados (tras_borrados s rows1) rows2.
Proof.
  revert s. induction rows1 as [|row rows1 IH]; intros s; simpl; [done|].
  by rewrite IH.
Qed.

(** Every entry of the trace of a run of deletions is a deletion on
    "reservas" and shows the sheet after some prefix of the run. *)
Lemma traza_borrados_prefijos rows : ∀ s es,
  es ∈ traza_borrados s rows →
  (∃ row_num, es.1 = DeleteRows TablaReservas row_num) ∧
  ∃ j, es.2 = tras_borrados s (take j rows).
Proof.
  induction rows as [|row rows IH]; intros s es Hin; simpl in Hin.
  - by apply elem_of_nil in Hin.
  - apply elem_of_cons in Hin as [->|Hin].
    + split; [by eexists|]. by exists 1.
    + destruct (IH _ _ Hin) as [Hev [j Hj]]. split; [done|].
      exists (S j). done.
Qed.

Lemma reservas_delete_rows_run row_num s fs tr av :
  reservas_delete_rows row_num (mkMundo s fs tr av) =
  match fs with
  | true :: fs' => (None, mkMundo s fs' tr av)
  | _ =>
      (Some tt,
       mkMundo (borrar_en s row_num) (tail fs)
         (tr ++ [(DeleteRows TablaReservas row_num, borrar_en s row_num)]) av)
  end.
Proof. desplegar. by destruct fs as [|[] fs]. Qed.

(** The loop [for row_num in ...: delete_rows(row_num)] without faults. *)
Lemma for_each_delete_ok rows : ∀ s tr av,
  for_each rows reservas_delete_rows (mkMundo s [] tr av) =
  (Some tt, mkMundo (tras_borrados s rows) [] (tr ++ traza_borrados s rows) av).
Proof.
  induction rows as [|row rows IH]; intros s tr av; simpl.
  - unfold ret. by rewrite app_nil_r.
  - unfold bind. rewrite reservas_delete_rows_run. simpl.
    rewrite IH, <- app_assoc. done.
Qed.

(** The same loop under any fault schedule: some prefix of the deletions
    was accepted. *)
Lemma for_each_delete_spec rows : ∀ s fs tr av,
  ∃ k r fs',
    for_each rows reservas_delete_rows (mkMundo s fs tr av) =
    (r, mkMundo (tras_borrados s (take k rows)) fs'
          (tr ++ traza_borrados s (take k rows)) av).
Proof.
  induction rows as [|row rows IH]; intros s fs tr av; simpl.
  - exists 0, (Some tt), fs. unfold ret. simpl. by rewrite app_nil_r.
  - unfold bind. rewrite reservas_delete_rows_run.
    assert (Hsigue : ∀ fs0, ∃ k r fs',
      for_each rows reservas_delete_rows
        (mkMundo (borrar_en s row) fs0
           (tr ++ [(DeleteRows TablaReservas row, borrar_en s row)]) av) =
      (r, mkMundo (tras_borrados s (take k (row :: rows))) fs'
            (tr ++ traza_borrados s (take k (row :: rows))) av)).
    { intros fs0. destruct (IH (borrar_en s row) fs0
        (tr ++ [(DeleteRows TablaReservas row, borrar_en s row)]) av)
        as (k & r & fs' & ->).
      exists (S k), r, fs'. simpl. by rewrite <- app_assoc. }
    destruct fs as [|[] fs]; simpl; [apply Hsigue| |apply Hsigue].
    exists 0, None, fs. simpl. by rewrite app_nil_r.
Qed.

Lemma traza_borrados_solo_borra now s k :
  solo_borra_expiradas now s
    (traza_borrados s
       (take k (reverse (rows_to_delete now (reservas_worksheet s))))).
Proof.
  intros es Hin. apply traza_borrados_prefijos in Hin as [Hev [j ->]].
  split; [done|]. rewrite take_take. apply tras_borrados_conserva.
Qed.

Lemma traza_limpieza_solo_borra now s :
  solo_borra_expiradas now s (traza_limpieza now s).
Proof.
  unfold traza_limpieza.
  rewrite <- (take_ge (reverse _) (length (reverse (rows_to_delete now (reservas_worksheet s))))) by done.
  apply traza_borrados_solo_borra.
Qed.

Lemma limpiar_reservas_expiradas_ok now s tr av :
  limpiar_reservas_expiradas now (mkMundo s [] tr av) =
  (Some tt, mkMundo (limpia now s) [] (tr ++ traza_limpieza now s) av).
Proof.
  unfold limpiar_reservas_expiradas. desplegar.
  by rewrite for_each_delete_ok.
Qed.

(** Under any fault schedule the sweep returns normally, and has only
    removed expired reservations. *)
Lemma limpiar_reservas_expiradas_spec now s fs tr av :
  ∃ s' fs' tr' av',
    limpiar_reservas_expiradas now (mkMundo s fs tr av) =
      (Some tt, mkMundo s' fs' (tr ++ tr') av') ∧
    conserva now s s' ∧ solo_borra_expiradas now s tr'.
Proof.
  unfold limpiar_reservas_expiradas. desplegar.
  assert (Haux : ∀ fs0, ∃ s' fs' tr' av',
    match for_each (reverse (rows_to_delete now (reservas_worksheet s)))
            reservas_delete_rows (mkMundo s fs0 tr av) with
    | (Some a, w') => (Some a, w')
    | (None, w') => (Some tt, mkMundo (sheet w') (fallos w') (traza w')
                                (avisos w' ++ [ErrorLimpiandoReservas]))
    end = (Some tt, mkMundo s' fs' (tr ++ tr') av') ∧
    conserva now s s' ∧ solo_borra_expiradas now s tr').
  { intros fs0.
    destruct (for_each_delete_spec
                (reverse (rows_to_delete now (reservas_worksheet s))) s fs0 tr av)
      as (k & r & fs' & ->).
    destruct r as [[]|]; simpl; do 4 eexists;
      (split; [reflexivity|]);
      (split; [apply tras_borrados_conserva|apply traza_borrados_solo_borra]). }
  destruct fs as [|[] fs]; simpl; [apply Haux| |apply Haux].
  exists s, fs, [], (av ++ [ErrorLimpiandoReservas]).
  rewrite app_nil_r. split; [done|]. split; [apply conserva_refl|].
  intros es Hes. by apply elem_of_nil in Hes.
Qed.

Lemma obtener_numeros_vendidos_ok s tr av :
  obtener_numeros_vendidos (mkMundo s [] tr av) =
  (Some (dict_ventas (ventas_worksheet s)), mkMundo s [] tr av).
Proof. unfold obtener_numeros_vendidos. by desplegar. Qed.


(** Under any schedule the getter returns normally and writes nothing. *)
Lemma obtener_numeros_vendidos_spec s fs tr av :
  ∃ d fs',
    obtener_numeros_vendidos (mkMundo s fs tr av) =
      (Some d, mkMundo s fs' tr av) ∧
    (d = ∅ ∨ d = dict_ventas (ventas_worksheet s)).
Proof.
  unfold obtener_numeros_vendidos. desplegar.
  destruct fs as [|[] fs]; simpl; eauto.
Qed.

Lemma obtener_numeros_reservados_ok now s tr av :
  obtener_numeros_reservados now (mkMundo s [] tr av) =
  (Some (dict_reservas (reservas_worksheet (limpia now s))),
   mkMundo (limpia now s) [] (tr ++ traza_limpieza now s) av).
Proof.
  unfold obtener_numeros_reservados, try_except, bind.
  rewrite limpiar_reservas_expiradas_ok. by desplegar.
Qed.

Lemma obtener_numeros_reservados_spec now s fs tr av :
  ∃ d s' fs' tr' av',
    obtener_numeros_reservados now (mkMundo s fs tr av) =
      (Some d, mkMundo s' fs' (tr ++ tr') av') ∧
    conserva now s s' ∧ solo_borra_expiradas now s tr' ∧
    (d = ∅ ∨ d = dict_reservas (reservas_worksheet s')).
Proof.
  unfold obtener_numeros_reservados, try_except, bind.
  destruct (limpiar_reservas_expiradas_spec now s fs tr av)
    as (s' & fs' & tr' & av' & -> & Hc & Htr).
  desplegar. destruct fs' as [|[] fs']; simpl; eauto 10.
Qed.

(** [reservar_numero] when every worksheet call succeeds. *)
Lemma reservar_numero_ok numero vendedor minutos now_limpieza now s tr av :
  reservar_numero numero vendedor minutos now_limpieza now (mkMundo s [] tr av) =
  let s1 := limpia now_limpieza s in
  let tr1 := tr ++ traza_limpieza now_limpieza s in
  match dict_ventas (ventas_worksheet s) !! numero with
  | Some _ => (Some (false, NumeroYaVendido), mkMundo s1 [] tr1 av)
  | None =>
      match dict_reservas (reservas_worksheet s1) !! numero with
      | Some reserva =>
          (Some (false, NumeroReservadoPor (record_vendedor reserva)),
           mkMundo s1 [] tr1 av)
      | None =>
          let fila := nueva_reserva numero vendedor minutos now in
          (Some (true, NumeroReservadoExitosamente),
           mkMundo (con_reserva s1 fila) []
             (tr1 ++ [(AppendReserva fila, con_reserva s1 fila)]) av)
      end
  end.
Proof.
  unfold reservar_numero, try_except, bind.
  rewrite obtener_numeros_vendidos_ok, obtener_numeros_reservados_ok.
  destruct (dict_ventas _ !! numero); [done|].
  destruct (dict_reservas _ !! numero); [done|].
  by desplegar.
Qed.

(** The first row of [records] (counted from [i]) with that number and
    seller. *)
Lemma coincide_bool numero vendedor record :
  bool_decide (Reserva.numero record = numero) &&
  bool_decide (record_vendedor record = VStr vendedor) = true ↔
  coincide numero vendedor record.
Proof.
  unfold coincide. rewrite andb_true_iff, !bool_decide_eq_true. done.
Qed.

(** A seller whose name is not a numeral is found by the text of the cell;
    one whose name is a numeral matches no record. *)
Lemma coincide_texto numero vendedor record :
  es_numerico vendedor = false →
  coincide numero vendedor record ↔
  Reserva.numero record = numero ∧ Reserva.vendedor record = vendedor.
Proof.
  intros Hnum. unfold coincide. rewrite record_vendedor_VStr. intuition.
Qed.

Lemma coincide_numerico numero vendedor record :
  es_numerico vendedor = true → ¬ coincide numero vendedor record.
Proof.
  intros Hnum [_ Hv]. apply record_vendedor_VStr in Hv as [_ Hv]. congruence.
Qed.

Lemma buscar_reserva_Some numero vendedor records : ∀ i j,
  buscar_reserva numero vendedor i records = Some j →
  ∃ l1 r l2,
    records = l1 ++ r :: l2 ∧ j = i + length l1 ∧
    coincide numero vendedor r ∧
    ∀ r', r' ∈ l1 → ¬ coincide numero vendedor r'.
Proof.
  induction records as [|x records IH]; intros i j Hb; simpl in Hb; [done|].
  destruct (bool_decide (Reserva.numero x = numero) &&
            bool_decide (record_vendedor x = VStr vendedor)) eqn:Hx.
  - apply coincide_bool in Hx.
    injection Hb as <-. exists [], x, records. simpl.
    split; [done|]. split; [lia|]. split; [done|].
    intros r' Hr'. by apply elem_of_nil in Hr'.
  - destruct (IH _ _ Hb) as (l1 & r & l2 & -> & -> & Hr & Hl1).
    exists (x :: l1), r, l2. simpl.
    split; [done|]. split; [lia|]. split; [done|].
    intros r' [->|Hr']%elem_of_cons; [|by apply Hl1].
    intros Hc%coincide_bool. congruence.
Qed.

Lemma buscar_reserva_None numero vendedor records : ∀ i,
  buscar_reserva numero vendedor i records = None →
  ∀ r, r ∈ records → ¬ coincide numero vendedor r.
Proof.
  induction records as [|x records IH]; intros i Hb r Hr; simpl in Hb.
  - by apply elem_of_nil in Hr.
  - destruct (bool_decide (Reserva.numero x = numero) &&
              bool_decide (record_vendedor x = VStr vendedor)) eqn:Hx; [done|].
    apply elem_of_cons in Hr as [->|Hr]; [|by eapply IH].
    intros Hc%coincide_bool. congruence.
Qed.

Lemma cancelar_reserva_ok numero vendedor s tr av :
  cancelar_reserva numero vendedor (mkMundo s [] tr av) =
  (Some tt,
   mkMundo (cancelada numero vendedor s) []
     (tr ++ traza_cancelar numero vendedor s) av).
Proof.
  unfold cancelar_reserva, cancelada, traza_cancelar, try_except, bind.
  unfold reservas_get_all_records, bind, llamada. simpl.
  destruct (buscar_reserva _ _ _ _) as [i|].
  - by rewrite reservas_delete_rows_run.
  - unfold ret. by rewrite app_nil_r.
Qed.

(** Under any fault schedule [cancelar_reserva] returns normally: either
    one of its calls raised, and it wrote nothing and showed its warning, or
    it ran to its end without a warning. *)
Lemma cancelar_reserva_spec numero vendedor s fs tr av :
  ∃ fs',
    cancelar_reserva numero vendedor (mkMundo s fs tr av) =
      (Some tt, mkMundo s fs' tr (av ++ [ErrorCancelandoReserva])) ∨
    cancelar_reserva numero vendedor (mkMundo s fs tr av) =
      (Some tt,
       mkMundo (cancelada numero vendedor s) fs'
         (tr ++ traza_cancelar numero vendedor s) av).
Proof.
  destruct fs as [|[] fs].
  - exists []. right. apply cancelar_reserva_ok.
  - exists fs. left. unfold cancelar_reserva. by desplegar.
  - unfold cancelar_reserva, cancelada, traza_cancelar, try_except, bind.
    unfold reservas_get_all_records, bind, llamada. simpl.
    destruct (buscar_reserva _ _ _ _) as [i|].
    + rewrite reservas_delete_rows_run.
      destruct fs as [|[] fs]; simpl; eauto.
    + unfold ret. exists fs. right. by rewrite app_nil_r.
Qed.

Lemma ventas_append_row_run fila s fs tr av :
  ventas_append_row fila (mkMundo s fs tr av) =
  match fs with
  | true :: fs' => (None, mkMundo s fs' tr av)
  | _ =>
      (Some tt,
       mkMundo (con_venta s fila) (tail fs)
         (tr ++ [(AppendVenta fila, con_venta s fila)]) av)
  end.
Proof. desplegar. by destruct fs as [|[] fs]. Qed.

(** [confirmar_venta] when every worksheet call succeeds. *)
Lemma confirmar_venta_ok numero comprador telefono vendedor now_limpieza now
    s tr av :
  confirmar_venta numero comprador telefono vendedor now_limpieza now
    (mkMundo s [] tr av) =
  let s1 := limpia now_limpieza s in
  let tr1 := tr ++ traza_limpieza now_limpieza s in
  match dict_reservas (reservas_worksheet s1) !! numero with
  | None => (Some (false, NumeroNoEstaReservado), mkMundo s1 [] tr1 av)
  | Some reserva =>
      if bool_decide (record_vendedor reserva ≠ VStr vendedor)
      then (Some (false, NoTienesLaReserva), mkMundo s1 [] tr1 av)
      else
        let fila := nueva_venta numero comprador telefono vendedor now in
        let s2 := con_venta s1 fila in
        (Some (true, VentaConfirmadaExitosamente),
         mkMundo (cancelada numero vendedor s2) []
           ((tr1 ++ [(AppendVenta fila, s2)])
              ++ traza_cancelar numero vendedor s2) av)
  end.
Proof.
  unfold confirmar_venta, try_except, bind.
  rewrite obtener_numeros_reservados_ok.
  destruct (dict_reservas _ !! numero) as [reserva|]; [|done].
  destruct (bool_decide (record_vendedor reserva ≠ VStr vendedor)); [done|].
  unfold ventas_append_row, bind, llamada, escribir. simpl.
  fold (con_venta (limpia now_limpieza s)
          (nueva_venta numero comprador telefono vendedor now)).
  by rewrite cancelar_reserva_ok.
Qed.

Lemma cancelada_ventas numero vendedor s :
  ventas_worksheet (cancelada numero vendedor s) = ventas_worksheet s.
Proof. unfold cancelada. by destruct (buscar_reserva _ _ _ _). Qed.

(** A completed cancel removes the first row of that number and seller, and
    no other row. *)
Lemma cancelada_reservas numero vendedor s :
  (cancelada numero vendedor s = s ∧
   traza_cancelar numero vendedor s = [] ∧
   ∀ r, r ∈ reservas_worksheet s → ¬ coincide numero vendedor r) ∨
  (∃ l1 r l2,
     reservas_worksheet s = l1 ++ r :: l2 ∧
     reservas_worksheet (cancelada numero vendedor s) = l1 ++ l2 ∧
     traza_cancelar numero vendedor s =
       [(DeleteRows TablaReservas (length l1 + 2),
         cancelada numero vendedor s)] ∧
     coincide numero vendedor r ∧
     ∀ r', r' ∈ l1 → ¬ coincide numero vendedor r').
Proof.
  unfold cancelada, traza_cancelar.
  destruct (buscar_reserva _ _ _ _) as [i|] eqn:Hb.
  - right. apply buscar_reserva_Some in Hb
      as (l1 & r & l2 & Hl & -> & Hr & Hl1).
    exists l1, r, l2. simpl. split; [done|]. split; [|done].
    unfold borrar_fila. rewrite decide_True by lia.
    rewrite Hl. replace (length l1 + 2 - 2) with (length l1) by lia.
    apply delete_middle.
  - left. split; [done|]. split; [done|]. by eapply buscar_reserva_None.
Qed.

Lemma cancelada_sublist numero vendedor s :
  reservas_worksheet (cancelada numero vendedor s)
    `sublist_of` reservas_worksheet s.
Proof.
  destruct (cancelada_reservas numero vendedor s)
    as [[-> _]|(l1 & r & l2 & -> & -> & _)]; [done|].
  apply sublist_app; [done|]. by apply sublist_cons.
Qed.

(** ** Runs of engine operations and the one-row-per-number invariant *)

Lemma filas_de_sublist {A} (numero : A → Z) n (l' l : list A) :
  l' `sublist_of` l →
  length (filas_de numero n l') ≤ length (filas_de numero n l).
Proof.
  induction 1 as [|x l1 l2 _ IH|x l1 l2 _ IH]; [done| |];
    unfold filas_de in *; rewrite ?filter_cons; repeat case_decide; simpl; lia.
Qed.

Lemma una_fila_sublist s s' :
  ventas_worksheet s' = ventas_worksheet s →
  reservas_worksheet s' `sublist_of` reservas_worksheet s →
  una_fila_por_numero s → una_fila_por_numero s'.
Proof.
  intros Hv Hsub [Hinv H0]. unfold una_fila_por_numero, ventas_de, reservas_de.
  rewrite Hv. split; [|done]. intros n Hn. specialize (Hinv n Hn).
  pose proof (filas_de_sublist Reserva.numero n _ _ Hsub).
  unfold ventas_de, reservas_de in Hinv. lia.
Qed.

Lemma limpia_sublist now s :
  reservas_worksheet (limpia now s) `sublist_of` reservas_worksheet s.
Proof. rewrite limpia_filter. simpl. apply sublist_filter. Qed.

Lemma limpia_ventas now s :
  ventas_worksheet (limpia now s) = ventas_worksheet s.
Proof. by rewrite limpia_filter. Qed.

Lemma una_fila_limpia now s :
  una_fila_por_numero s → una_fila_por_numero (limpia now s).
Proof.
  apply una_fila_sublist; [apply limpia_ventas|apply limpia_sublist].
Qed.

Lemma una_fila_cancelada numero vendedor s :
  una_fila_por_numero s → una_fila_por_numero (cancelada numero vendedor s).
Proof.
  apply una_fila_sublist; [apply cancelada_ventas|apply cancelada_sublist].
Qed.

(** Appending a reservation for a number that neither mapping holds. *)
Lemma una_fila_con_reserva s fila :
  dict_ventas (ventas_worksheet s) !! Reserva.numero fila = None →
  dict_reservas (reservas_worksheet s) !! Reserva.numero fila = None →
  una_fila_por_numero s → una_fila_por_numero (con_reserva s fila).
Proof.
  intros Hv Hr [Hinv H0]. split; [|done]. intros n Hn.
  specialize (Hinv n Hn). unfold ventas_de, reservas_de in *. simpl.
  destruct (decide (Reserva.numero fila = n)) as [Heq|Hne].
  - subst n. rewrite filas_de_snoc_eq by done.
    rewrite (dict_por_numero_None _ _ _ Hn Hv).
    rewrite (dict_por_numero_None _ _ _ Hn Hr). simpl. lia.
  - by rewrite filas_de_snoc_ne.
Qed.

(** The two writes of a confirmed sale: the reservation the mapping held is
    traded for the sale. *)
Lemma una_fila_confirmada s reserva fila vendedor :
  dict_reservas (reservas_worksheet s) !! Venta.numero fila = Some reserva →
  record_vendedor reserva = VStr vendedor →
  una_fila_por_numero s →
  una_fila_por_numero
    (cancelada (Venta.numero fila) vendedor (con_venta s fila)).
Proof.
  intros Hd Hvend [Hinv H0].
  apply dict_por_numero_Some in Hd as (Hn0 & Hnum & Hin).
  set (numero := Venta.numero fila) in *.
  destruct (cancelada_reservas numero vendedor (con_venta s fila))
    as [(_ & _ & Hno)|(l1 & r & l2 & Hl & Hl' & _ & [Hrn _] & _)].
  { exfalso. by apply (Hno reserva Hin). }
  simpl in Hl. split.
  - intros n Hn. specialize (Hinv n Hn).
    unfold ventas_de, reservas_de in *.
    rewrite cancelada_ventas, Hl'. simpl.
    rewrite Hl, filas_de_medio_length in Hinv.
    destruct (decide (numero = n)) as [Heq|Hne].
    + rewrite filas_de_snoc_eq by done.
      rewrite decide_True in Hinv by congruence.
      rewrite length_app. simpl. lia.
    + rewrite filas_de_snoc_ne by done.
      rewrite decide_False in Hinv by congruence. lia.
  - unfold ventas_de in *. rewrite cancelada_ventas. simpl.
    rewrite filas_de_snoc_ne by done. done.
Qed.

(** Each operation run on a store without faults keeps the invariant. *)
Lemma ejecutar_una_fila op w :
  fallos w = [] → una_fila_por_numero (sheet w) →
  fallos (ejecutar op w) = [] ∧ una_fila_por_numero (sheet (ejecutar op w)).
Proof.
  destruct w as [s fs tr av]. simpl. intros -> Hinv.
  destruct op as [numero vendedor minutos nl now
                 |numero comprador telefono vendedor nl now
                 |numero vendedor|now]; simpl.
  - rewrite reservar_numero_ok. simpl.
    destruct (dict_ventas _ !! numero) eqn:Hv; simpl;
      [split; [done|by apply una_fila_limpia]|].
    destruct (dict_reservas _ !! numero) eqn:Hr; simpl;
      [split; [done|by apply una_fila_limpia]|].
    split; [done|].
    apply una_fila_con_reserva; simpl;
      [by rewrite limpia_ventas|done|by apply una_fila_limpia].
  - rewrite confirmar_venta_ok. simpl.
    destruct (dict_reservas _ !! numero) as [reserva|] eqn:Hr; simpl;
      [|split; [done|by apply una_fila_limpia]].
    destruct (bool_decide (record_vendedor reserva ≠ VStr vendedor)) eqn:Hb;
      simpl; [split; [done|by apply una_fila_limpia]|].
    apply bool_decide_eq_false in Hb. apply dec_stable in Hb.
    split; [done|].
    apply (una_fila_confirmada (limpia nl s) reserva
             (nueva_venta numero comprador telefono vendedor now));
      [done|done|by apply una_fila_limpia].
  - rewrite cancelar_reserva_ok. simpl.
    split; [done|by apply una_fila_cancelada].
  - rewrite limpiar_reservas_expiradas_ok. simpl.
    split; [done|by apply una_fila_limpia].
Qed.

Lemma ejecutar_todas_una_fila ops : ∀ w,
  fallos w = [] → una_fila_por_numero (sheet w) →
  fallos (ejecutar_todas ops w) = [] ∧
  una_fila_por_numero (sheet (ejecutar_todas ops w)).
Proof.
  induction ops as [|op ops IH]; intros w Hf Hinv; simpl; [done|].
  destruct (ejecutar_una_fila op w Hf Hinv) as [Hf' Hinv'].
  by apply IH.
Qed.

Lemma una_fila_sheet_vacia : una_fila_por_numero sheet_vacia.
Proof. split; [|done]. intros n _. simpl. lia. Qed.



(** ** Rejections of [reservar_numero] *)

Lemma solo_limpio_limpia now s tr av :
  solo_limpio now (mkMundo s [] tr av)
    (mkMundo (limpia now s) [] (tr ++ traza_limpieza now s) av).
Proof.
  unfold solo_limpio. simpl. rewrite limpia_filter. simpl.
  repeat split; try done.
  exists (traza_limpieza now s). split; [done|]. apply traza_limpieza_solo_borra.
Qed.

Lemma reservar_numero_vendido numero vendedor minutos now_limpieza now w venta :
  fallos w = [] → numero ≠ 0%Z →
  venta ∈ ventas_worksheet (sheet w) → Venta.numero venta = numero →
  ∃ w',
    reservar_numero numero vendedor minutos now_limpieza now w =
      (Some (false, NumeroYaVendido), w') ∧
    solo_limpio now_limpieza w w'.
Proof.
  destruct w as [s fs tr av]. simpl. intros -> Hn Hin Hnum.
  rewrite reservar_numero_ok. simpl.
  destruct (dict_por_numero_is_Some Venta.numero _ _ _ Hn Hin Hnum) as [v Hv].
  unfold dict_ventas. rewrite Hv.
  eexists. split; [done|]. apply solo_limpio_limpia.
Qed.

(** With no sale of the number and a reservation in force, the call is
    refused with the seller of the last such reservation; [r] names that
    seller whenever all reservations in force for the number are by one
    seller. *)
Lemma reservar_numero_ocupado numero vendedor minutos now_limpieza now w r :
  fallos w = [] → numero ≠ 0%Z →
  ventas_de numero (sheet w) = [] →
  r ∈ reservas_worksheet (sheet w) → Reserva.numero r = numero →
  vigente now_limpieza r →
  (∀ r', r' ∈ reservas_worksheet (sheet w) → Reserva.numero r' = numero →
         vigente now_limpieza r' → Reserva.vendedor r' = Reserva.vendedor r) →
  ∃ w',
    reservar_numero numero vendedor minutos now_limpieza now w =
      (Some (false, NumeroReservadoPor (record_vendedor r)), w') ∧
    solo_limpio now_limpieza w w'.
Proof.
  destruct w as [s fs tr av]. simpl. intros -> Hn Hv Hin Hnum Hvig Huno.
  rewrite reservar_numero_ok. simpl.
  unfold dict_ventas, dict_reservas. rewrite !dict_por_numero_lookup.
  rewrite !decide_False by done. unfold ventas_de in Hv. rewrite Hv. simpl.
  rewrite limpia_filter. simpl.
  destruct (last _) as [r'|] eqn:Hlast.
  - apply last_Some_elem_of in Hlast.
    apply list_elem_of_filter in Hlast as [Hnum' Hin'].
    apply list_elem_of_filter in Hin' as [Hvig' Hin'].
    unfold record_vendedor. rewrite (Huno r' Hin' Hnum' Hvig').
    eexists. split; [done|]. rewrite <- limpia_filter. apply solo_limpio_limpia.
  - exfalso. apply last_None in Hlast.
    eapply (filter_nil_not_elem_of _ _ r Hlast); [done|].
    by apply list_elem_of_filter.
Qed.

(** A second [reservar_numero] on the number of a reservation that was just
    made and is still in force at the second sweep: refused with the first
    seller's name, whoever calls; the first row stays as it was written. *)
Lemma reservar_numero_dos_veces numero vendedorA vendedorB minutosA minutosB
    nlA nowA nlB nowB w w1 msg :
  fallos w = [] → numero ≠ 0%Z →
  reservar_numero numero vendedorA minutosA nlA nowA w = (Some (true, msg), w1) →
  (nlB ≤ nowA + timedelta_minutes minutosA)%Z →
  ∃ w2,
    reservar_numero numero vendedorB minutosB nlB nowB w1 =
      (Some (false, NumeroReservadoPor (numericise vendedorA)), w2) ∧
    solo_limpio nlB w1 w2 ∧
    reservas_de numero (sheet w2) = [nueva_reserva numero vendedorA minutosA nowA].
Proof.
  destruct w as [s fs tr av]. simpl. intros -> Hn Hres Hexp.
  rewrite reservar_numero_ok in Hres. simpl in Hres.
  destruct (dict_ventas _ !! numero) eqn:Hv; [done|].
  destruct (dict_reservas _ !! numero) eqn:Hr; [done|].
  injection Hres as _ <-.
  set (fila := nueva_reserva numero vendedorA minutosA nowA) in *.
  set (s1 := con_reserva (limpia nlA s) fila).
  assert (Hvig : vigente nlB fila) by done.
  assert (Hfilas : reservas_de numero (limpia nlB s1) = [fila]).
  { unfold reservas_de. rewrite limpia_filter. simpl.
    rewrite filter_app, filter_cons, decide_True, filter_nil by done.
    rewrite filas_de_snoc_eq by done.
    apply (dict_por_numero_None Reserva.numero) in Hr; [|done].
    pose proof (filas_de_sublist Reserva.numero numero _ _
                  (sublist_filter (vigente nlB)
                     (reservas_worksheet (limpia nlA s)))) as Hlen.
    rewrite Hr in Hlen. simpl in Hlen.
    destruct (filas_de Reserva.numero numero
                (filter (vigente nlB) (reservas_worksheet (limpia nlA s))));
      [done|simpl in Hlen; lia]. }
  rewrite reservar_numero_ok. simpl. rewrite limpia_ventas in *. rewrite Hv.
  unfold dict_reservas. rewrite dict_por_numero_lookup, decide_False by done.
  unfold reservas_de in Hfilas. fold s1. rewrite Hfilas. simpl.
  eexists. split; [done|]. split; [apply solo_limpio_limpia|done].
Qed.

(** C2. For every ticket number (any number other than 0) and seller,
    Reserve against a ticket that has a Sale record is refused with
    "Número ya vendido" (AlreadySold), and Reserve against a ticket with a
    reservation in force owned by a different seller is refused with
    "Número reservado por <that seller>" (HeldByOther); in particular
    Reserve(t, A) followed by Reserve(t, B), B ≠ A, before A's expiry makes
    B's call fail naming A.  In each refusal the call writes nothing but the
    deletions of its sweep of expired rows: no reservation row is appended.
    Every worksheet call is taken to succeed. *)
Theorem reservar_numero_rechaza (numero : Z) (vendedorA vendedorB : string)
    (minutosA minutosB nlA nowA nlB nowB : Z) (w : Mundo) :
  fallos w = [] → numero ≠ 0%Z → vendedorB ≠ vendedorA →
  ((∃ venta, venta ∈ ventas_worksheet (sheet w) ∧ Venta.numero venta = numero) →
   ∃ w', reservar_numero numero vendedorB minutosB nlB nowB w =
           (Some (false, NumeroYaVendido), w') ∧
         solo_limpio nlB w w') ∧
  (ventas_de numero (sheet w) = [] →
   (∃ r, r ∈ reservas_worksheet (sheet w) ∧ Reserva.numero r = numero ∧
         vigente nlB r ∧ Reserva.vendedor r = vendedorA) →
   (∀ r', r' ∈ reservas_worksheet (sheet w) → Reserva.numero r' = numero →
          vigente nlB r' → Reserva.vendedor r' = vendedorA) →
   ∃ w', reservar_numero numero vendedorB minutosB nlB nowB w =
           (Some (false, NumeroReservadoPor (numericise vendedorA)), w') ∧
         solo_limpio nlB w w') ∧
  (∀ w1 msg,
     reservar_numero numero vendedorA minutosA nlA nowA w =
       (Some (true, msg), w1) →
     (nlB ≤ nowA + timedelta_minutes minutosA)%Z →
     ∃ w2, reservar_numero numero vendedorB minutosB nlB nowB w1 =
             (Some (false, NumeroReservadoPor (numericise vendedorA)), w2) ∧
           solo_limpio nlB w1 w2).
Proof.
  intros Hf Hn _. repeat split.
  - intros (venta & Hin & Hnum). by eapply reservar_numero_vendido.
  - intros Hv (r & Hin & Hnum & Hvig & <-) Huno.
    by apply reservar_numero_ocupado.
  - intros w1 msg Hres Hexp.
    destruct (reservar_numero_dos_veces numero vendedorA vendedorB minutosA
                minutosB nlA nowA nlB nowB w w1 msg Hf Hn Hres Hexp)
      as (w2 & H2 & Hsl & _).
    by exists w2.
Qed.

Lemma reservar_numero_rechaza_witness :
  (reservar_numero 7 "B" 5 10 10 mundo_vendido_7).1 =
    Some (false, NumeroYaVendido) ∧
  (reservar_numero 7 "B" 5 10 10 mundo_reservado_7).1 =
    Some (false, NumeroReservadoPor (VStr "A")) ∧
  (reservar_numero 7 "B" 5 10 10
     (reservar_numero 7 "A" 5 0 0 (mundo_inicial sheet_vacia [])).2).1 =
    Some (false, NumeroReservadoPor (VStr "A")).
Proof.
  assert (HBA : "B" ≠ "A") by done.
  assert (H7 : (7 ≠ 0)%Z) by done.
  split; [|split].
  - destruct (reservar_numero_rechaza 7 "A" "B" 5 5 0 0 10 10 mundo_vendido_7
                eq_refl H7 HBA) as (Hsold & _ & _).
    destruct Hsold as (w' & -> & _); [|done].
    exists (nueva_venta 7 "X" "555" "A" 1). split; [apply list_elem_of_here|done].
  - destruct (reservar_numero_rechaza 7 "A" "B" 5 5 0 0 10 10 mundo_reservado_7
                eq_refl H7 HBA) as (_ & Hheld & _).
    destruct Hheld as (w' & -> & _); [done| |
      intros r' ->%list_elem_of_singleton; done|done].
    exists (nueva_reserva 7 "A" 5 0).
    split; [apply list_elem_of_here|]. by vm_compute.
  - destruct (reservar_numero_rechaza 7 "A" "B" 5 5 0 0 10 10
                (mundo_inicial sheet_vacia []) eq_refl H7 HBA) as (_ & _ & Hseq).
    destruct (Hseq (reservar_numero 7 "A" 5 0 0 (mundo_inicial sheet_vacia [])).2
                NumeroReservadoExitosamente) as (w2 & -> & _); [done| |done].
    by vm_compute.
Defined.

(** ** Outcomes of [confirmar_venta] *)

(** What the reserved mapping holds after a completed sweep. *)
Lemma dict_reservas_limpia_Some now s numero r :
  dict_reservas (reservas_worksheet (limpia now s)) !! numero = Some r →
  numero ≠ 0%Z ∧ Reserva.numero r = numero ∧ vigente now r ∧
  r ∈ reservas_worksheet s.
Proof.
  intros (Hn & Hnum & Hin)%dict_por_numero_Some.
  rewrite limpia_filter in Hin. simpl in Hin.
  apply list_elem_of_filter in Hin as [Hvig Hin]. done.
Qed.

Lemma dict_reservas_limpia_None now s numero :
  (∀ r, r ∈ reservas_worksheet s → Reserva.numero r = numero →
        ¬ vigente now r) →
  dict_reservas (reservas_worksheet (limpia now s)) !! numero = None.
Proof.
  intros Hno. destruct (dict_reservas _ !! numero) as [r|] eqn:Hd; [|done].
  apply dict_reservas_limpia_Some in Hd as (_ & Hnum & Hvig & Hin).
  by destruct (Hno r Hin Hnum).
Qed.




(** ** A seller reserving a number again *)

Lemma filas_de_vigentes now n (l : list Reserva.t) :
  filas_de Reserva.numero n (filter (vigente now) l) =
  filter (vigente now) (filas_de Reserva.numero n l).
Proof.
  unfold filas_de. induction l as [|x l IH]; [done|].
  rewrite !filter_cons. repeat case_decide; rewrite ?filter_cons;
    repeat case_decide; try done; by f_equal.
Qed.

(** Counterexample to C5 as stated: seller "A" reserves number 7 on an empty
    sheet and, one microsecond later and long before the expiry, reserves it
    again; the second call does not succeed: it is refused with
    "Número reservado por A". *)
Lemma reservar_numero_repetido_no_es_exito :
  let w1 := (reservar_numero 7 "A" 5 0 0 (mundo_inicial sheet_vacia [])).2 in
  (reservar_numero 7 "A" 5 0 0 (mundo_inicial sheet_vacia [])).1 =
    Some (true, NumeroReservadoExitosamente) ∧
  vigente 1 (nueva_reserva 7 "A" 5 0) ∧
  (reservar_numero 7 "A" 5 1 1 w1).1 = Some (false, NumeroReservadoPor (VStr "A")) ∧
  ¬ ∃ msg, (reservar_numero 7 "A" 5 1 1 w1).1 = Some (true, msg).
Proof.
  intros w1. split; [by vm_compute|]. split; [by vm_compute|].
  split; [by vm_compute|]. intros [msg Hmsg]. by vm_compute in Hmsg.
Qed.

(** C5 (amended). For every ticket number t (other than 0) without a sale
    and seller A holding the reservations in force on t, a second
    Reserve(t, A) before expiry is refused like anyone else's, with
    "Número reservado por A"; the existing reservation rows of t that are in
    force stand as they were written (original expiry included) and no
    second reservation row is appended.  Every worksheet call is taken to
    succeed. *)
Theorem reservar_numero_mismo_vendedor (numero : Z) (vendedorA : string)
    (minutos now_limpieza now : Z) (w : Mundo) (r : Reserva.t) :
  fallos w = [] → numero ≠ 0%Z →
  ventas_de numero (sheet w) = [] →
  r ∈ reservas_worksheet (sheet w) → Reserva.numero r = numero →
  Reserva.vendedor r = vendedorA → vigente now_limpieza r →
  (∀ r', r' ∈ reservas_worksheet (sheet w) → Reserva.numero r' = numero →
         vigente now_limpieza r' → Reserva.vendedor r' = vendedorA) →
  ∃ w',
    reservar_numero numero vendedorA minutos now_limpieza now w =
      (Some (false, NumeroReservadoPor (numericise vendedorA)), w') ∧
    solo_limpio now_limpieza w w' ∧
    r ∈ reservas_worksheet (sheet w') ∧
    reservas_de numero (sheet w') =
      filter (vigente now_limpieza) (reservas_de numero (sheet w)).
Proof.
  intros Hf Hn Hv Hin Hnum <- Hvig Huno.
  destruct (reservar_numero_ocupado numero (Reserva.vendedor r) minutos
              now_limpieza now w r Hf Hn Hv Hin Hnum Hvig Huno)
    as (w' & Hres & Hsl).
  exists w'. split; [done|]. split; [done|].
  destruct Hsl as (Hvs & Hrs & Htr). unfold reservas_de. rewrite Hrs. split.
  - by apply list_elem_of_filter.
  - apply filas_de_vigentes.
Qed.

Lemma reservar_numero_mismo_vendedor_witness :
  (reservar_numero 7 "A" 5 10 10 mundo_reservado_7).1 =
    Some (false, NumeroReservadoPor (VStr "A")) ∧
  reservas_worksheet
    (sheet (reservar_numero 7 "A" 5 10 10 mundo_reservado_7).2) =
    [nueva_reserva 7 "A" 5 0].
Proof.
  destruct (reservar_numero_mismo_vendedor 7 "A" 5 10 10 mundo_reservado_7
              (nueva_reserva 7 "A" 5 0)) as (w' & -> & Hsl & _);
    [done|done|done|apply list_elem_of_here|done|done|by vm_compute| |].
  - intros r' ->%list_elem_of_singleton _ _. done.
  - simpl. destruct Hsl as (_ & -> & _). split; [done|]. by vm_compute.
Defined.

(** ** Expiry *)

Lemma clasificar_ok now numero s tr av :
  clasificar now numero (mkMundo s [] tr av) =
  (Some (mostrar_grilla_numero (dict_ventas (ventas_worksheet s))
           (dict_reservas (reservas_worksheet (limpia now s))) numero),
   mkMundo (limpia now s) [] (tr ++ traza_limpieza now s) av).
Proof.
  unfold clasificar, obtener_datos, bind.
  by rewrite obtener_numeros_vendidos_ok, obtener_numeros_reservados_ok.
Qed.

(** Counterexample to C6 as stated: the reservation of number 7 by "A"
    expires at instant 100 and the clock reads exactly 100, so its expiry is
    less than or equal to now; it is still in the reserved mapping, the
    number is shown as reserved, and Reserve by "B" is refused. *)
Lemma reserva_que_expira_ahora_sigue_vigente :
  (Reserva.expira_en (Reserva.mk 7 "A" 0 100) ≤ 100)%Z ∧
  (clasificar 100 7 mundo_expirado_7).1 =
    Some (Reservado (Reserva.mk 7 "A" 0 100)) ∧
  (reservar_numero 7 "B" 5 100 100 mundo_expirado_7).1 =
    Some (false, NumeroReservadoPor (VStr "A")) ∧
  reservas_worksheet (sheet (reservar_numero 7 "B" 5 100 100 mundo_expirado_7).2)
    = [Reserva.mk 7 "A" 0 100].
Proof. repeat split; by vm_compute. Qed.

(** C6 (amended). A reservation row whose expiry is strictly earlier than
    now is deleted by the sweep that the reserved-numbers getter runs before
    it reads, so the mapping never holds such a row and the ticket is not
    counted as Reserved; Reserve against a ticket without a sale whose only
    reservation rows are such expired ones succeeds and appends the new
    row, with no separate earlier Reap call needed.  (A row whose expiry
    equals now is still in force.)  Every worksheet call is taken to
    succeed. *)
Theorem reserva_expirada_no_cuenta (numero : Z) (vendedor : string)
    (minutos now_limpieza now : Z) (w : Mundo) :
  fallos w = [] →
  (∃ d w',
     obtener_numeros_reservados now_limpieza w = (Some d, w') ∧
     ∀ n r, d !! n = Some r → (now_limpieza ≤ Reserva.expira_en r)%Z) ∧
  (ventas_de numero (sheet w) = [] →
   (∀ r, r ∈ reservas_worksheet (sheet w) → Reserva.numero r = numero →
         (Reserva.expira_en r < now_limpieza)%Z) →
   (clasificar now_limpieza numero w).1 = Some Disponible ∧
   ∃ w',
     reservar_numero numero vendedor minutos now_limpieza now w =
       (Some (true, NumeroReservadoExitosamente), w') ∧
     ventas_worksheet (sheet w') = ventas_worksheet (sheet w) ∧
     reservas_worksheet (sheet w') =
       filter (vigente now_limpieza) (reservas_worksheet (sheet w))
         ++ [nueva_reserva numero vendedor minutos now]).
Proof.
  destruct w as [s fs tr av]. simpl. intros ->. split.
  - rewrite obtener_numeros_reservados_ok. do 2 eexists. split; [done|].
    intros n r Hd. by apply dict_reservas_limpia_Some in Hd as (_ & _ & Hvig & _).
  - intros Hv Hexp.
    assert (Hdv : dict_ventas (ventas_worksheet s) !! numero = None).
    { unfold dict_ventas. rewrite dict_por_numero_lookup.
      case_decide; [done|]. unfold ventas_de in Hv. by rewrite Hv. }
    assert (Hdr : dict_reservas (reservas_worksheet (limpia now_limpieza s))
                    !! numero = None).
    { apply dict_reservas_limpia_None. intros r Hin Hnum Hvig.
      specialize (Hexp r Hin Hnum). unfold vigente in Hvig. lia. }
    rewrite clasificar_ok, reservar_numero_ok. simpl.
    unfold mostrar_grilla_numero. rewrite Hdv, Hdr. split; [done|].
    eexists. split; [done|]. simpl. by rewrite limpia_filter.
Qed.

Lemma reserva_expirada_no_cuenta_witness :
  (clasificar 101 7 mundo_expirado_7).1 = Some Disponible ∧
  (reservar_numero 7 "B" 5 101 101 mundo_expirado_7).1 =
    Some (true, NumeroReservadoExitosamente) ∧
  reservas_worksheet (sheet (reservar_numero 7 "B" 5 101 101 mundo_expirado_7).2)
    = [nueva_reserva 7 "B" 5 101].
Proof.
  destruct (reserva_expirada_no_cuenta 7 "B" 5 101 101 mundo_expirado_7 eq_refl)
    as (_ & Hlibre).
  destruct Hlibre as (Hcl & w' & -> & _ & Hrs); [done| |].
  - intros r ->%list_elem_of_singleton _. by vm_compute.
  - split; [done|]. split; [done|]. simpl. rewrite Hrs. by vm_compute.
Defined.

(** ** What reading the two mappings writes *)

Lemma rows_to_delete_desde_vigentes now records : ∀ i,
  (∀ r, r ∈ records → vigente now r) →
  rows_to_delete_desde now i records = [].
Proof.
  induction records as [|x records IH]; intros i Hvig; simpl; [done|].
  rewrite (proj2 (gtb_false_vigente now x)) by (apply Hvig; left).
  apply IH. intros r Hr. apply Hvig. by right.
Qed.

(** With no expired row the sweep makes no write, whatever the schedule. *)
Lemma limpiar_reservas_expiradas_sin_expiradas now s fs tr av :
  (∀ r, r ∈ reservas_worksheet s → vigente now r) →
  ∃ fs' av',
    limpiar_reservas_expiradas now (mkMundo s fs tr av) =
    (Some tt, mkMundo s fs' tr av').
Proof.
  intros Hvig. unfold limpiar_reservas_expiradas.
  destruct fs as [|[] fs]; desplegar; unfold rows_to_delete;
    rewrite ?rows_to_delete_desde_vigentes by done; simpl; eauto.
Qed.

Lemma obtener_numeros_reservados_sin_expiradas now s fs tr av :
  (∀ r, r ∈ reservas_worksheet s → vigente now r) →
  ∃ d fs' av',
    obtener_numeros_reservados now (mkMundo s fs tr av) =
    (Some d, mkMundo s fs' tr av').
Proof.
  intros Hvig. unfold obtener_numeros_reservados, try_except, bind.
  destruct (limpiar_reservas_expiradas_sin_expiradas now s fs tr av Hvig)
    as (fs' & av' & ->).
  desplegar. destruct fs' as [|[] fs']; simpl; eauto.
Qed.

(** Counterexample to C8 as stated: number 7 has a reservation that expired
    at 100; obtaining the reserved mapping at 101 (and so classifying any
    number) deletes that row from the "reservas" table. *)
Lemma obtener_numeros_reservados_borra_filas :
  reservas_worksheet (sheet mundo_expirado_7) = [Reserva.mk 7 "A" 0 100] ∧
  reservas_worksheet
    (sheet (obtener_numeros_reservados 101 mundo_expirado_7).2) = [] ∧
  traza (obtener_numeros_reservados 101 mundo_expirado_7).2 =
    [(DeleteRows TablaReservas 2, mkSheet [] [])] ∧
  sheet (clasificar 101 7 mundo_expirado_7).2 ≠ sheet mundo_expirado_7.
Proof. repeat split; by vm_compute. Qed.

(** C8 (amended). Obtaining the sold mapping performs no write.  Obtaining
    the reserved mapping never touches the Sales table and appends nothing,
    but it first sweeps: its only writes are deletions, from the
    Reservations table, of rows that have expired; when no reservation has
    expired both tables are left exactly as they were.  When the worksheet
    calls succeed the two mappings are functions of the tables and of now
    alone. *)
Theorem obtener_numeros_solo_borra_expiradas (now : Z) (w : Mundo) :
  (∃ d w',
     obtener_numeros_vendidos w = (Some d, w') ∧
     sheet w' = sheet w ∧ traza w' = traza w) ∧
  (∃ d w' tr',
     obtener_numeros_reservados now w = (Some d, w') ∧
     conserva now (sheet w) (sheet w') ∧
     traza w' = traza w ++ tr' ∧ solo_borra_expiradas now (sheet w) tr') ∧
  ((∀ r, r ∈ reservas_worksheet (sheet w) → vigente now r) →
   ∃ d w',
     obtener_numeros_reservados now w = (Some d, w') ∧
     sheet w' = sheet w ∧ traza w' = traza w) ∧
  (fallos w = [] →
   (obtener_numeros_vendidos w).1 =
     Some (dict_ventas (ventas_worksheet (sheet w))) ∧
   (obtener_numeros_reservados now w).1 =
     Some (dict_reservas
             (filter (vigente now) (reservas_worksheet (sheet w))))).
Proof.
  destruct w as [s fs tr av]. simpl. split; [|split; [|split]].
  - destruct (obtener_numeros_vendidos_spec s fs tr av) as (d & fs' & -> & _).
    by do 2 eexists.
  - destruct (obtener_numeros_reservados_spec now s fs tr av)
      as (d & s' & fs' & tr' & av' & -> & Hc & Htr & _).
    by do 3 eexists.
  - intros Hvig.
    destruct (obtener_numeros_reservados_sin_expiradas now s fs tr av Hvig)
      as (d & fs' & av' & ->).
    by do 2 eexists.
  - intros ->.
    by rewrite obtener_numeros_vendidos_ok, obtener_numeros_reservados_ok,
      limpia_filter.
Qed.

Lemma obtener_numeros_solo_borra_expiradas_witness :
  sheet (obtener_numeros_reservados 10 mundo_reservado_7).2 =
    sheet mundo_reservado_7 ∧
  traza (obtener_numeros_reservados 10 mundo_reservado_7).2 = [] ∧
  (obtener_numeros_vendidos mundo_vendido_7).1 =
    Some {[ 7%Z := nueva_venta 7 "X" "555" "A" 1 ]}.
Proof.
  destruct (obtener_numeros_solo_borra_expiradas 10 mundo_reservado_7)
    as (_ & _ & Hsin & _).
  destruct Hsin as (d & w' & Hres & Hs & Ht).
  { intros r ->%list_elem_of_singleton. by vm_compute. }
  destruct (obtener_numeros_solo_borra_expiradas 10 mundo_vendido_7)
    as (_ & _ & _ & Hdet).
  destruct (Hdet eq_refl) as [-> _].
  rewrite Hres. unfold snd. by rewrite Hs, Ht.
Defined.

(** ** [cancelar_reserva] *)

Lemma buscar_reserva_sin_fila numero vendedor records :
  (∀ r, r ∈ records → ¬ coincide numero vendedor r) →
  buscar_reserva numero vendedor 0 records = None.
Proof.
  intros Hno. destruct (buscar_reserva _ _ _ _) as [j|] eqn:Hb; [|done].
  apply buscar_reserva_Some in Hb as (l1 & r & l2 & -> & _ & Hr & _).
  destruct (Hno r); [|done]. apply elem_of_app. right. left.
Qed.

(** Counterexample to C9 as stated: [cancelar_reserva] has no return value.
    Seller "B" cancelling number 7 held by "A" (wrong seller), seller "A"
    cancelling number 8 (no reservation) and seller "A" cancelling number 7
    (a real cancel) all return the same [None], and no warning is shown;
    only the sheet tells them apart. *)
Lemma cancelar_reserva_no_devuelve_motivo :
  (cancelar_reserva 7 "B" mundo_reservado_7).1 = Some tt ∧
  (cancelar_reserva 8 "A" mundo_reservado_7).1 = Some tt ∧
  (cancelar_reserva 7 "A" mundo_reservado_7).1 = Some tt ∧
  avisos (cancelar_reserva 7 "B" mundo_reservado_7).2 = [] ∧
  avisos (cancelar_reserva 8 "A" mundo_reservado_7).2 = [] ∧
  sheet (cancelar_reserva 7 "B" mundo_reservado_7).2 = sheet mundo_reservado_7 ∧
  sheet (cancelar_reserva 8 "A" mundo_reservado_7).2 = sheet mundo_reservado_7 ∧
  sheet (cancelar_reserva 7 "A" mundo_reservado_7).2 = sheet_vacia.
Proof. repeat split; by vm_compute. Qed.

(** What a completed cancel does, in terms of the texts of the cells: for
    a seller whose name is not a numeral it removes the first row with that
    number and that name, if there is one; otherwise it removes nothing. *)
Lemma cancelada_casos numero vendedor s :
  (cancelada numero vendedor s = s ∧ traza_cancelar numero vendedor s = [] ∧
   (es_numerico vendedor = true ∨
    ∀ r, r ∈ reservas_worksheet s →
      ¬ (Reserva.numero r = numero ∧ Reserva.vendedor r = vendedor))) ∨
  (∃ row_num,
     sin_primera numero vendedor s (cancelada numero vendedor s) row_num ∧
     traza_cancelar numero vendedor s =
       [(DeleteRows TablaReservas row_num, cancelada numero vendedor s)] ∧
     es_numerico vendedor = false).
Proof.
  destruct (cancelada_reservas numero vendedor s)
    as [(Heq & Htr & Hno)|(l1 & r & l2 & Hl & Hl' & Htr & Hr & Hl1)].
  - left. split; [done|]. split; [done|].
    destruct (es_numerico vendedor) eqn:Hnum; [by left|right].
    intros r Hin Hr. apply (Hno r Hin). by apply coincide_texto.
  - right. exists (length l1 + 2).
    pose proof Hr as [_ [_ Hnum]%record_vendedor_VStr].
    apply (coincide_texto _ _ _ Hnum) in Hr as [Hn Hv].
    split; [|done]. split; [apply cancelada_ventas|].
    exists l1, r, l2. repeat (split; [done|]).
    intros r' Hin Hr'. apply (Hl1 r' Hin). by apply coincide_texto.
Qed.

(** C9 (amended). Cancel(number, seller) returns nothing in every case: a
    mismatched seller or an absent reservation is not reported, and is a
    no-op that leaves both tables as they were and makes no write; in
    particular Cancel(t, A) against a reservation held by B ≠ A leaves B's
    row in place.  Under any fault schedule Cancel leaves the Sales table
    as it was and either writes nothing or deletes exactly one reservation
    row: the first one, in table order, with that number and that seller
    (whose name must not read back as a number).  It shows no warning
    unless one of its worksheet calls raised, and then it wrote nothing. *)
Theorem cancelar_reserva_solo_la_propia (numero : Z) (vendedor : string)
    (w : Mundo) :
  ∃ w',
    cancelar_reserva numero vendedor w = (Some tt, w') ∧
    ventas_worksheet (sheet w') = ventas_worksheet (sheet w) ∧
    ((sheet w' = sheet w ∧ traza w' = traza w) ∨
     (∃ row_num,
        sin_primera numero vendedor (sheet w) (sheet w') row_num ∧
        traza w' = traza w ++ [(DeleteRows TablaReservas row_num, sheet w')] ∧
        avisos w' = avisos w ∧ es_numerico vendedor = false)) ∧
    (∀ r, r ∈ reservas_worksheet (sheet w) → Reserva.vendedor r ≠ vendedor →
          r ∈ reservas_worksheet (sheet w')) ∧
    ((∀ r, r ∈ reservas_worksheet (sheet w) →
           ¬ (Reserva.numero r = numero ∧ Reserva.vendedor r = vendedor)) →
     sheet w' = sheet w ∧ traza w' = traza w) ∧
    (es_numerico vendedor = true → sheet w' = sheet w ∧ traza w' = traza w) ∧
    (avisos w' = avisos w ∨
     (avisos w' = avisos w ++ [ErrorCancelandoReserva] ∧
      sheet w' = sheet w ∧ traza w' = traza w)) ∧
    (fallos w = [] → avisos w' = avisos w).
Proof.
  destruct w as [s fs tr av]. simpl.
  assert (Hcasos : ∃ fs',
    (cancelar_reserva numero vendedor (mkMundo s fs tr av) =
       (Some tt, mkMundo s fs' tr (av ++ [ErrorCancelandoReserva])) ∧
     fs ≠ []) ∨
    cancelar_reserva numero vendedor (mkMundo s fs tr av) =
      (Some tt,
       mkMundo (cancelada numero vendedor s) fs'
         (tr ++ traza_cancelar numero vendedor s) av)).
  { destruct fs as [|f fs0].
    - exists []. right. apply cancelar_reserva_ok.
    - destruct (cancelar_reserva_spec numero vendedor s (f :: fs0) tr av)
        as (fs' & [H|H]); exists fs'; [by left|by right]. }
  destruct Hcasos as (fs' & [[-> Hfs]| ->]); eexists; (split; [done|]); simpl.
  - split; [done|]. split; [by left|]. split; [done|]. split; [done|].
    split; [done|]. split; [by right|]. done.
  - rewrite cancelada_ventas. split; [done|].
    destruct (cancelada_casos numero vendedor s)
      as [(Heq & Htr & Hno)|(row_num & Hsin & Htr & Hnum)].
    + rewrite Heq, Htr, app_nil_r.
      split; [by left|]. split; [done|]. split; [done|]. split; [done|].
      split; [by left|]. done.
    + rewrite Htr. split; [right; by exists row_num|].
      destruct Hsin as (_ & l1 & r & l2 & Hl & Hl' & _ & Hn & Hv & _).
      split; [|split; [|split; [|split; [by left|done]]]].
      * rewrite Hl, Hl'.
        intros r' Hin Hne. apply elem_of_app in Hin as [Hin|Hin];
          apply elem_of_app; [by left|right].
        apply elem_of_cons in Hin as [->|Hin]; [congruence|done].
      * intros Hno. destruct (Hno r); [|done].
        rewrite Hl. apply elem_of_app. right. left.
      * congruence.
Qed.

Lemma cancelar_reserva_solo_la_propia_witness :
  sheet (cancelar_reserva 7 "B" mundo_reservado_7).2 = sheet mundo_reservado_7 ∧
  traza (cancelar_reserva 7 "B" mundo_reservado_7).2 = [] ∧
  avisos (cancelar_reserva 7 "B" mundo_reservado_7).2 = [].
Proof.
  destruct (cancelar_reserva_solo_la_propia 7 "B" mundo_reservado_7)
    as (w' & Hres & _ & _ & _ & Hnoop & _ & _ & Hav).
  rewrite Hres. unfold snd.
  destruct Hnoop as [-> ->].
  { intros r ->%list_elem_of_singleton [_ Hv]. done. }
  split; [done|]. split; [done|]. by apply Hav.
Defined.

(** ** When the store fails *)




(** A sale row of a number other than 0 appended last is what the sold
    mapping reports, and so is what the grid shows, at any later time. *)
Lemma dict_ventas_con_venta s fila :
  Venta.numero fila ≠ 0%Z →
  dict_ventas (ventas_worksheet (con_venta s fila)) !! Venta.numero fila
  = Some fila.
Proof.
  intros Hn. unfold dict_ventas. simpl. rewrite dict_por_numero_snoc.
  destruct (Z.eqb_spec (Venta.numero fila) 0); [done|].
  apply lookup_insert_eq.
Qed.

Lemma clasificar_vendido now numero s tr av fila :
  dict_ventas (ventas_worksheet s) !! numero = Some fila →
  (clasificar now numero (mkMundo s [] tr av)).1 = Some (Vendido fila).
Proof.
  intros Hd. rewrite clasificar_ok. simpl.
  unfold mostrar_grilla_numero. by rewrite Hd.
Qed.

Lemma buscar_reserva_con_fila numero vendedor records r :
  r ∈ records → coincide numero vendedor r →
  is_Some (buscar_reserva numero vendedor 0 records).
Proof.
  intros Hin Hr.
  destruct (buscar_reserva _ _ _ _) as [j|] eqn:Hb; [done|].
  by destruct (buscar_reserva_None _ _ _ _ Hb r Hin).
Qed.

(** C10. If, during a Confirm whose ownership checks passed (the reserved
    mapping holds the number and the seller cell of its record equals the
    caller's name, line 162), the deletion of the reservation row fails
    after the sale row was appended (the read inside [cancelar_reserva]
    raises, or its [delete_rows] does), Confirm still returns success: the
    exception is swallowed with a warning, the sale row stays in the table,
    the reservation row stays too, and since the grid looks at the sold
    mapping first the ticket is shown as Sold by every later
    classification. *)
Theorem confirmar_venta_borrado_fallido (numero : Z)
    (comprador telefono vendedor : string) (now_limpieza now : Z)
    (w w1 : Mundo) (d : gmap Z Reserva.t) (reserva : Reserva.t)
    (fs : list bool) :
  obtener_numeros_reservados now_limpieza w = (Some d, w1) →
  d !! numero = Some reserva → record_vendedor reserva = VStr vendedor →
  (fallos w1 = false :: true :: fs ∨
   fallos w1 = false :: false :: true :: fs) →
  let fila := nueva_venta numero comprador telefono vendedor now in
  ∃ w',
    confirmar_venta numero comprador telefono vendedor now_limpieza now w =
      (Some (true, VentaConfirmadaExitosamente), w') ∧
    sheet w' = con_venta (sheet w1) fila ∧
    reserva ∈ reservas_worksheet (sheet w') ∧
    traza w' = traza w1 ++ [(AppendVenta fila, con_venta (sheet w1) fila)] ∧
    avisos w' = avisos w1 ++ [ErrorCancelandoReserva] ∧
    ∀ now' tr' av',
      (clasificar now' numero (mkMundo (sheet w') [] tr' av')).1 =
        Some (Vendido fila).
Proof.
  intros Hobt Hd Hv Hfs fila.
  destruct w as [s fs0 tr av]. destruct w1 as [s1 fs1 tr1 av1].
  destruct (obtener_numeros_reservados_spec now_limpieza s fs0 tr av)
    as (d' & s1' & fs1' & tr1' & av1' & Hobt' & _ & _ & Hd').
  rewrite Hobt in Hobt'. injection Hobt' as -> -> -> Htr ->.
  destruct Hd' as [->| ->]; [by rewrite lookup_empty in Hd|].
  pose proof Hd as (Hn & Hnum & Hin)%dict_por_numero_Some.
  destruct (buscar_reserva_con_fila numero vendedor
              (reservas_worksheet (con_venta s1' fila)) reserva Hin
              (conj Hnum Hv))
    as [i Hi].
  unfold confirmar_venta, try_except, bind. rewrite Hobt, Hd.
  rewrite bool_decide_eq_false_2 by (by intros []).
  fold fila. simpl in Hfs.
  assert (Hfin : ∀ w',
    sheet w' = con_venta s1' fila →
    reserva ∈ reservas_worksheet (sheet w') ∧
    ∀ now' tr' av',
      (clasificar now' numero (mkMundo (sheet w') [] tr' av')).1 =
        Some (Vendido fila)).
  { intros w' ->. split; [done|]. intros now' tr' av'.
    apply clasificar_vendido. by apply dict_ventas_con_venta. }
  destruct Hfs as [-> | ->].
  - unfold cancelar_reserva. desplegar.
    eexists. split; [done|]. simpl.
    destruct (Hfin (mundo_inicial (con_venta s1' fila) []) eq_refl)
      as [Hin' Hcl].
    split; [done|]. split; [exact Hin'|]. split; [done|]. split; [done|].
    exact Hcl.
  - unfold cancelar_reserva, ventas_append_row, reservas_get_all_records,
      bind, try_except, llamada, escribir. simpl.
    simpl in Hi. rewrite Hi, reservas_delete_rows_run.
    unfold st_warning. simpl.
    eexists. split; [done|]. simpl.
    destruct (Hfin (mundo_inicial (con_venta s1' fila) []) eq_refl)
      as [Hin' Hcl].
    split; [done|]. split; [exact Hin'|]. split; [done|]. split; [done|].
    exact Hcl.
Qed.

Lemma confirmar_venta_borrado_fallido_witness :
  (confirmar_venta 7 "X" "555" "A" 10 10 mundo_reservado_7_sin_borrado).1 =
    Some (true, VentaConfirmadaExitosamente) ∧
  sheet (confirmar_venta 7 "X" "555" "A" 10 10 mundo_reservado_7_sin_borrado).2 =
    mkSheet [nueva_venta 7 "X" "555" "A" 10] [nueva_reserva 7 "A" 5 0].
Proof.
  destruct (confirmar_venta_borrado_fallido 7 "X" "555" "A" 10 10
              mundo_reservado_7_sin_borrado
              (obtener_numeros_reservados 10 mundo_reservado_7_sin_borrado).2
              {[ 7%Z := nueva_reserva 7 "A" 5 0 ]}
              (nueva_reserva 7 "A" 5 0) [])
    as (w' & Hres & Hs & _); [by vm_compute|done|done|by left|].
  rewrite Hres. unfold fst, snd. by rewrite Hs.
Defined.

(** After such a failed deletion the reservation row is still there, so the
    same seller can confirm again before it expires: the sales table then
    holds two rows for the number.  The one-row-per-number invariant is
    about runs whose worksheet calls all succeed. *)
Lemma borrado_fallido_permite_segunda_venta :
  let w1 := (confirmar_venta 7 "X" "555" "A" 10 10
               mundo_reservado_7_sin_borrado).2 in
  fallos w1 = [] ∧
  ventas_worksheet
    (sheet (confirmar_venta 7 "Y" "556" "A" 20 20 w1).2) =
    [nueva_venta 7 "X" "555" "A" 10; nueva_venta 7 "Y" "556" "A" 20].
Proof. split; by vm_compute. Qed.

(** ** The order of the two writes of [confirmar_venta] *)

(** [confirmar_venta] under any fault schedule: after the sweep it either
    refuses (or reports an error) having written nothing more, or it appends
    the sale and then [cancelar_reserva] either fails with its warning or
    runs to its end. *)
Lemma confirmar_venta_spec numero comprador telefono vendedor now_limpieza now
    s fs tr av :
  let fila := nueva_venta numero comprador telefono vendedor now in
  ∃ s1 fs' tr1 av1,
    conserva now_limpieza s s1 ∧ solo_borra_expiradas now_limpieza s tr1 ∧
    ((∃ msg,
        confirmar_venta numero comprador telefono vendedor now_limpieza now
          (mkMundo s fs tr av) =
        (Some (false, msg), mkMundo s1 fs' (tr ++ tr1) av1)) ∨
     (∃ reserva,
        dict_reservas (reservas_worksheet s1) !! numero = Some reserva ∧
        record_vendedor reserva = VStr vendedor ∧
        (confirmar_venta numero comprador telefono vendedor now_limpieza now
           (mkMundo s fs tr av) =
         (Some (true, VentaConfirmadaExitosamente),
          mkMundo (con_venta s1 fila) fs'
            ((tr ++ tr1) ++ [(AppendVenta fila, con_venta s1 fila)])
            (av1 ++ [ErrorCancelandoReserva])) ∨
         confirmar_venta numero comprador telefono vendedor now_limpieza now
           (mkMundo s fs tr av) =
         (Some (true, VentaConfirmadaExitosamente),
          mkMundo (cancelada numero vendedor (con_venta s1 fila)) fs'
            (((tr ++ tr1) ++ [(AppendVenta fila, con_venta s1 fila)])
               ++ traza_cancelar numero vendedor (con_venta s1 fila)) av1)))).
Proof.
  intros fila. unfold confirmar_venta, try_except, bind.
  destruct (obtener_numeros_reservados_spec now_limpieza s fs tr av)
    as (d & s1 & fs1 & tr1 & av1 & -> & Hc & Htr & Hd).
  destruct (d !! numero) as [reserva|] eqn:Hlook;
    [|exists s1, fs1, tr1, av1; split; [done|]; split; [done|];
      left; by eexists].
  destruct Hd as [->| ->]; [by rewrite lookup_empty in Hlook|].
  destruct (bool_decide (record_vendedor reserva ≠ VStr vendedor)) eqn:Hb;
    [exists s1, fs1, tr1, av1; split; [done|]; split; [done|];
     left; by eexists|].
  apply bool_decide_eq_false in Hb. apply dec_stable in Hb.
  rewrite ventas_append_row_run. subst fila. unfold nueva_venta.
  set (fila := Venta.mk numero comprador telefono vendedor now now).
  exists s1.
  destruct fs1 as [|[] fs1]; cbn -[cancelar_reserva con_venta].
  - destruct (cancelar_reserva_spec numero vendedor (con_venta s1 fila) []
                ((tr ++ tr1) ++ [(AppendVenta fila, con_venta s1 fila)]) av1)
      as (fs' & [->| ->]); exists fs', tr1, av1;
      (split; [done|]); (split; [done|]); right; exists reserva;
      (split; [done|]); (split; [done|]); [by left|by right].
  - exists fs1, tr1, av1. split; [done|]. split; [done|]. left. by eexists.
  - destruct (cancelar_reserva_spec numero vendedor (con_venta s1 fila) fs1
                ((tr ++ tr1) ++ [(AppendVenta fila, con_venta s1 fila)]) av1)
      as (fs' & [->| ->]); exists fs', tr1, av1;
      (split; [done|]); (split; [done|]); right; exists reserva;
      (split; [done|]); (split; [done|]); [by left|by right].
Qed.

(** When the ownership check passed, a [cancelar_reserva] that runs to its
    end on the sheet that holds the new sale removes a row: the first
    reservation row of the number with the caller's name. *)
Lemma cancelada_tras_venta numero vendedor s1 fila reserva :
  dict_reservas (reservas_worksheet s1) !! numero = Some reserva →
  record_vendedor reserva = VStr vendedor →
  ∃ row_num,
    sin_primera numero vendedor (con_venta s1 fila)
      (cancelada numero vendedor (con_venta s1 fila)) row_num ∧
    traza_cancelar numero vendedor (con_venta s1 fila) =
      [(DeleteRows TablaReservas row_num,
        cancelada numero vendedor (con_venta s1 fila))].
Proof.
  intros (_ & Hnum & Hin)%dict_por_numero_Some
         [Hv Hnumerico]%record_vendedor_VStr.
  destruct (cancelada_casos numero vendedor (con_venta s1 fila))
    as [(_ & _ & [Hsi|Hno])|(row_num & Hsin & Htr & _)].
  - congruence.
  - by destruct (Hno reserva Hin).
  - by exists row_num.
Qed.

(** C4. On a successful Confirm the sale row is appended to "ventas"
    strictly before the reservation row is deleted from "reservas": the
    writes of the call are the sweep's deletions of expired reservations,
    then the append of the sale, then the one deletion of
    [cancelar_reserva], which removes the caller's reservation row (the
    first row of the number with the caller's name) -- or no deletion at
    all when a call of [cancelar_reserva] raised, which its warning shows.
    The sheet right after the append still holds the caller's reservation
    row next to the sale.  In every sheet from the append on, the final one
    included, the ticket classifies as Sold at any time.  Whatever its
    outcome and whatever the store's faults, Confirm never deletes a sale
    row: no write of the call is a deletion on "ventas" and the sales rows
    it found stay a prefix of the table throughout. *)
Theorem confirmar_venta_anota_antes_de_borrar (numero : Z)
    (comprador telefono vendedor : string) (now_limpieza now : Z)
    (w w' : Mundo) (res : bool * Mensaje) :
  confirmar_venta numero comprador telefono vendedor now_limpieza now w =
    (Some res, w') →
  let fila := nueva_venta numero comprador telefono vendedor now in
  (∃ tr',
     traza w' = traza w ++ tr' ∧
     ∀ es, es ∈ tr' →
       (∀ row_num, es.1 ≠ DeleteRows TablaVentas row_num) ∧
       ventas_worksheet (sheet w) `prefix_of` ventas_worksheet es.2) ∧
  ventas_worksheet (sheet w) `prefix_of` ventas_worksheet (sheet w') ∧
  (res.1 = true →
   ∃ tr1 s1 tr2,
     traza w' = traza w ++ tr1 ++ (AppendVenta fila, con_venta s1 fila) :: tr2 ∧
     solo_borra_expiradas now_limpieza (sheet w) tr1 ∧
     conserva now_limpieza (sheet w) s1 ∧
     ((tr2 = [] ∧ sheet w' = con_venta s1 fila ∧
       last (avisos w') = Some ErrorCancelandoReserva) ∨
      (∃ row_num,
         tr2 = [(DeleteRows TablaReservas row_num, sheet w')] ∧
         sheet w' = cancelada numero vendedor (con_venta s1 fila) ∧
         sin_primera numero vendedor (con_venta s1 fila) (sheet w') row_num)) ∧
     (∃ reserva,
        reserva ∈ reservas_worksheet (con_venta s1 fila) ∧
        Reserva.numero reserva = numero ∧
        Reserva.vendedor reserva = vendedor) ∧
     (∀ es, es ∈ (AppendVenta fila, con_venta s1 fila) :: tr2 →
        ∀ now' tr' av',
          (clasificar now' numero (mkMundo es.2 [] tr' av')).1 =
            Some (Vendido fila)) ∧
     (∀ now' tr' av',
        (clasificar now' numero (mkMundo (sheet w') [] tr' av')).1 =
          Some (Vendido fila))).
Proof.
  destruct w as [s fs tr av]. intros Hres fila. simpl.
  destruct (confirmar_venta_spec numero comprador telefono vendedor
              now_limpieza now s fs tr av)
    as (s1 & fs1 & tr1 & av1 & Hc & Htr1 & Hcasos).
  fold fila in Hcasos.
  assert (Hpre1 : ∀ es, es ∈ tr1 →
            (∀ row_num, es.1 ≠ DeleteRows TablaVentas row_num) ∧
            ventas_worksheet s `prefix_of` ventas_worksheet es.2).
  { intros es Hes. destruct (Htr1 es Hes) as [[row Hev] (Hv & _ & _)].
    split; [intros row'; by rewrite Hev|]. by rewrite Hv. }
  pose proof Hc as (Hv1 & _ & _).
  destruct Hcasos as [[msg Hno]|(reserva & Hd & Hven & Hsi)].
  { rewrite Hres in Hno. injection Hno as -> ->.
    split; [by exists tr1|]. simpl. split; [by rewrite Hv1|done]. }
  pose proof Hd as (Hn & Hnum & Hin)%dict_por_numero_Some.
  pose proof Hven as [Hvtxt _]%record_vendedor_VStr.
  assert (Hvend : ∀ s2 now' tr' av',
            ventas_worksheet s2 = ventas_worksheet (con_venta s1 fila) →
            (clasificar now' numero (mkMundo s2 [] tr' av')).1 =
              Some (Vendido fila)).
  { intros s2 now2 tr2 av2 Hs2. apply clasificar_vendido. rewrite Hs2.
    by apply (dict_ventas_con_venta s1 fila). }
  assert (Hpre2 : ventas_worksheet s `prefix_of`
                    ventas_worksheet (con_venta s1 fila)).
  { simpl. rewrite Hv1. by apply prefix_app_r. }
  destruct Hsi as [Hsi|Hsi]; rewrite Hres in Hsi; injection Hsi as -> ->; simpl.
  - split; [|split; [done|]].
    + exists (tr1 ++ [(AppendVenta fila, con_venta s1 fila)]).
      split; [by rewrite app_assoc|].
      intros es [Hes|Hes%list_elem_of_singleton]%elem_of_app; [by apply Hpre1|].
      subst es. done.
    + intros _. exists tr1, s1, []. rewrite <- app_assoc.
      split; [done|]. split; [done|]. split; [done|].
      split; [left; by rewrite last_snoc|].
      split; [by exists reserva|]. split; [|by intros; apply Hvend].
      intros es ->%list_elem_of_singleton now' tr' av'. by apply Hvend.
  - assert (Hpre3 : ventas_worksheet s `prefix_of`
              ventas_worksheet (cancelada numero vendedor (con_venta s1 fila)))
      by (by rewrite cancelada_ventas).
    destruct (cancelada_tras_venta numero vendedor s1 fila reserva Hd Hven)
      as (row_num & Hsin & Hrow).
    rewrite Hrow.
    split; [|split; [done|]].
    + exists (tr1 ++ [(AppendVenta fila, con_venta s1 fila);
                      (DeleteRows TablaReservas row_num,
                       cancelada numero vendedor (con_venta s1 fila))]).
      split; [by rewrite <- !app_assoc|].
      intros es [Hes|Hes]%elem_of_app; [by apply Hpre1|].
      apply elem_of_cons in Hes as [->|Hes]; [done|].
      apply list_elem_of_singleton in Hes as ->. done.
    + intros _.
      exists tr1, s1, [(DeleteRows TablaReservas row_num,
                        cancelada numero vendedor (con_venta s1 fila))].
      split; [by rewrite <- !app_assoc|]. split; [done|]. split; [done|].
      split; [right; by exists row_num|].
      split; [by exists reserva|].
      split; [|intros; apply Hvend; apply cancelada_ventas].
      intros es [->|Hes]%elem_of_cons now' tr' av'; [by apply Hvend|].
      apply list_elem_of_singleton in Hes as ->.
      apply Hvend, cancelada_ventas.
Qed.

Lemma confirmar_venta_anota_antes_de_borrar_witness :
  traza (confirmar_venta 7 "X" "555" "A" 10 10 mundo_reservado_7).2 =
    [(AppendVenta (nueva_venta 7 "X" "555" "A" 10),
      mkSheet [nueva_venta 7 "X" "555" "A" 10] [nueva_reserva 7 "A" 5 0]);
     (DeleteRows TablaReservas 2,
      mkSheet [nueva_venta 7 "X" "555" "A" 10] [])] ∧
  (clasificar 1000000000 7
     (mundo_inicial
        (sheet (confirmar_venta 7 "X" "555" "A" 10 10 mundo_reservado_7).2)
        [])).1 = Some (Vendido (nueva_venta 7 "X" "555" "A" 10)).
Proof.
  split; [by vm_compute|].
  destruct (confirmar_venta_anota_antes_de_borrar 7 "X" "555" "A" 10 10
              mundo_reservado_7
              (confirmar_venta 7 "X" "555" "A" 10 10 mundo_reservado_7).2
              (true, VentaConfirmadaExitosamente)) as (_ & _ & Hexito);
    [by vm_compute|].
  destruct (Hexito eq_refl)
    as (tr1 & s1 & tr2 & _ & _ & _ & _ & _ & _ & Hfin).
  apply Hfin.
Defined.

(** * Further properties of the engine *)

(** ** The sweep *)

Lemma filter_todos {A} (P : A → Prop) `{∀ x, Decision (P x)} (l : list A) :
  (∀ x, x ∈ l → P x) → filter P l = l.
Proof.
  induction l as [|x l IH]; intros Hall; [done|].
  rewrite filter_cons, decide_True by (apply Hall; left).
  f_equal. apply IH. intros y Hy. apply Hall. by right.
Qed.

Lemma length_traza_borrados rows : ∀ s,
  length (traza_borrados s rows) = length rows.
Proof. induction rows as [|row rows IH]; intros s; simpl; [done|]. by rewrite IH. Qed.

Lemma length_rows_to_delete_desde now records : ∀ i,
  length (rows_to_delete_desde now i records) =
  length (filter (λ r, ¬ vigente now r) records).
Proof.
  induction records as [|x records IH]; intros i; simpl; [done|].
  rewrite filter_cons.
  destruct (now >? Reserva.expira_en x)%Z eqn:Hx.
  - apply gtb_true_vigente in Hx. rewrite decide_True by done.
    simpl. by rewrite IH.
  - apply gtb_false_vigente in Hx. rewrite decide_False by (by intros []).
    apply IH.
Qed.

(** A sweep whose worksheet calls all succeed leaves exactly the
    reservations with [now > expira] false, in their order: deleting the
    collected row numbers from the back, each [delete_rows(i + 2)] meets the
    row it was computed for.  It makes one deletion per expired row, all on
    "reservas", leaves the sales alone and shows no warning. *)
Theorem limpiar_reservas_expiradas_deja_vigentes (now : Z) (w : Mundo) :
  fallos w = [] →
  ∃ w' tr',
    limpiar_reservas_expiradas now w = (Some tt, w') ∧
    ventas_worksheet (sheet w') = ventas_worksheet (sheet w) ∧
    reservas_worksheet (sheet w') =
      filter (vigente now) (reservas_worksheet (sheet w)) ∧
    traza w' = traza w ++ tr' ∧
    solo_borra_expiradas now (sheet w) tr' ∧
    length tr' =
      length (filter (λ r, ¬ vigente now r) (reservas_worksheet (sheet w))) ∧
    avisos w' = avisos w ∧ fallos w' = [].
Proof.
  destruct w as [s fs tr av]. simpl. intros ->.
  rewrite limpiar_reservas_expiradas_ok.
  exists (mkMundo (limpia now s) [] (tr ++ traza_limpieza now s) av),
    (traza_limpieza now s). simpl.
  rewrite limpia_filter. simpl.
  split; [done|]. split; [done|]. split; [done|]. split; [done|].
  split; [apply traza_limpieza_solo_borra|]. split; [|done].
  unfold traza_limpieza, rows_to_delete.
  by rewrite length_traza_borrados, length_reverse,
    length_rows_to_delete_desde.
Qed.

Lemma limpiar_reservas_expiradas_deja_vigentes_witness :
  reservas_worksheet
    (sheet (limpiar_reservas_expiradas 100 mundo_dos_expiradas).2) =
    [Reserva.mk 4 "B" 0 500] ∧
  map fst (traza (limpiar_reservas_expiradas 100 mundo_dos_expiradas).2) =
    [DeleteRows TablaReservas 4; DeleteRows TablaReservas 2].
Proof.
  destruct (limpiar_reservas_expiradas_deja_vigentes 100 mundo_dos_expiradas
              eq_refl) as (w' & tr' & Hres & _ & Hrs & _).
  rewrite Hres. unfold snd. rewrite Hrs. split; [by vm_compute|].
  apply (f_equal snd) in Hres. simpl in Hres. rewrite <- Hres. by vm_compute.
Defined.

(** Idempotence: right after a completed sweep, a second sweep at the same
    clock reading (or an earlier one) finds nothing to delete and leaves the
    world, trace included, exactly as it was. *)
Theorem limpiar_reservas_expiradas_dos_veces (now now' : Z) (w w1 : Mundo) :
  fallos w = [] → (now' ≤ now)%Z →
  limpiar_reservas_expiradas now w = (Some tt, w1) →
  limpiar_reservas_expiradas now' w1 = (Some tt, w1).
Proof.
  destruct w as [s fs tr av]. simpl. intros -> Hle.
  rewrite limpiar_reservas_expiradas_ok. intros [= <-].
  rewrite limpiar_reservas_expiradas_ok.
  assert (Hvig : ∀ r, r ∈ reservas_worksheet (limpia now s) → vigente now' r).
  { intros r. rewrite limpia_filter. simpl.
    intros [Hv _]%list_elem_of_filter. unfold vigente in *. lia. }
  unfold limpia at 1, traza_limpieza at 2, rows_to_delete.
  rewrite rows_to_delete_desde_vigentes by done. simpl.
  by rewrite app_nil_r.
Qed.

Lemma limpiar_reservas_expiradas_dos_veces_witness :
  limpiar_reservas_expiradas 100
    (limpiar_reservas_expiradas 100 mundo_dos_expiradas).2 =
  (Some tt, (limpiar_reservas_expiradas 100 mundo_dos_expiradas).2).
Proof.
  apply (limpiar_reservas_expiradas_dos_veces 100 100 mundo_dos_expiradas);
    [done|done|by vm_compute].
Defined.



Lemma limpiar_reservas_expiradas_con_fallos_ejemplo :
  let w := mundo_inicial (sheet mundo_dos_expiradas) [false; false; true] in
  (limpiar_reservas_expiradas 100 w).1 = Some tt ∧
  reservas_worksheet (sheet (limpiar_reservas_expiradas 100 w).2) =
    [Reserva.mk 3 "A" 0 50; Reserva.mk 4 "B" 0 500] ∧
  avisos (limpiar_reservas_expiradas 100 w).2 = [ErrorLimpiandoReservas].
Proof. repeat split; by vm_compute. Qed.

(** ** A reservation through its life *)

(** What a successful [reservar_numero] has found and done. *)
Lemma reservar_numero_exito numero vendedor minutos now_limpieza now
    s tr av w1 msg :
  reservar_numero numero vendedor minutos now_limpieza now (mkMundo s [] tr av)
    = (Some (true, msg), w1) →
  let fila := nueva_reserva numero vendedor minutos now in
  dict_ventas (ventas_worksheet s) !! numero = None ∧
  dict_reservas (reservas_worksheet (limpia now_limpieza s)) !! numero = None ∧
  msg = NumeroReservadoExitosamente ∧
  w1 = mkMundo (con_reserva (limpia now_limpieza s) fila) []
         ((tr ++ traza_limpieza now_limpieza s)
            ++ [(AppendReserva fila, con_reserva (limpia now_limpieza s) fila)])
         av.
Proof.
  rewrite reservar_numero_ok. simpl.
  destruct (dict_ventas _ !! numero) eqn:Hv; [done|].
  destruct (dict_reservas _ !! numero) eqn:Hr; [done|].
  by intros [= <- <-].
Qed.


Lemma sin_filas_de_filter {A} (numero : A → Z) n (P : A → Prop)
    `{∀ x, Decision (P x)} (l : list A) :
  filas_de numero n l = [] → filas_de numero n (filter P l) = [].
Proof.
  intros Hnil.
  pose proof (filas_de_sublist numero n _ _ (sublist_filter P l)) as Hlen.
  rewrite Hnil in Hlen.
  destruct (filas_de numero n (filter P l)); [done|simpl in Hlen; lia].
Qed.



(** What the page shows for a number other than 0 without sale rows, from
    the reservation rows of the number. *)
Lemma clasificar_sin_venta now numero s tr av :
  numero ≠ 0%Z → ventas_de numero s = [] →
  (clasificar now numero (mkMundo s [] tr av)).1 =
  Some (match last (filter (vigente now) (reservas_de numero s)) with
        | Some r => Reservado r
        | None => Disponible
        end).
Proof.
  intros Hn Hv. rewrite clasificar_ok. simpl. unfold mostrar_grilla_numero.
  unfold dict_ventas, dict_reservas. rewrite !dict_por_numero_lookup.
  rewrite !decide_False by done. unfold ventas_de in Hv. rewrite Hv. simpl.
  rewrite limpia_filter. simpl. unfold reservas_de.
  by rewrite filas_de_vigentes.
Qed.

(** A successful Reserve of a number other than 0 leaves that number with the
    one new row; the number is then shown as reserved by that row at every
    clock reading up to and including its expiry, and as available at every
    later one. *)
Theorem reservar_numero_queda_reservado (numero : Z) (vendedor : string)
    (minutos now_limpieza now : Z) (w w1 : Mundo) (msg : Mensaje) :
  fallos w = [] → numero ≠ 0%Z →
  reservar_numero numero vendedor minutos now_limpieza now w =
    (Some (true, msg), w1) →
  let fila := nueva_reserva numero vendedor minutos now in
  reservas_de numero (sheet w1) = [fila] ∧
  ventas_de numero (sheet w1) = [] ∧
  (∀ now' tr av, (now' ≤ Reserva.expira_en fila)%Z →
     (clasificar now' numero (mkMundo (sheet w1) [] tr av)).1 =
       Some (Reservado fila)) ∧
  (∀ now' tr av, (Reserva.expira_en fila < now')%Z →
     (clasificar now' numero (mkMundo (sheet w1) [] tr av)).1 =
       Some Disponible).
Proof.
  destruct w as [s fs tr av]. simpl. intros -> Hn Hres.
  apply reservar_numero_exito in Hres as (Hv & Hr & _ & ->). simpl.
  apply (dict_por_numero_None Venta.numero) in Hv; [|done].
  apply (dict_por_numero_None Reserva.numero) in Hr; [|done].
  assert (Hfilas : reservas_de numero
            (con_reserva (limpia now_limpieza s)
               (nueva_reserva numero vendedor minutos now)) =
            [nueva_reserva numero vendedor minutos now]).
  { unfold reservas_de. simpl. rewrite filas_de_snoc_eq by done.
    by rewrite Hr. }
  assert (Hvs : ventas_de numero
            (con_reserva (limpia now_limpieza s)
               (nueva_reserva numero vendedor minutos now)) = []).
  { unfold ventas_de. simpl. by rewrite limpia_ventas. }
  split; [done|]. split; [done|]. split.
  - intros now' tr' av' Hle. rewrite clasificar_sin_venta by done.
    rewrite Hfilas, filter_cons, decide_True by done. done.
  - intros now' tr' av' Hlt. rewrite clasificar_sin_venta by done.
    rewrite Hfilas, filter_cons, decide_False; [done|].
    unfold vigente, nueva_reserva in *. simpl in *. lia.
Qed.

Lemma reservar_numero_queda_reservado_witness :
  let w1 := (reservar_numero 7 "A" 5 0 0 (mundo_inicial sheet_vacia [])).2 in
  (clasificar 300000000 7 (mundo_inicial (sheet w1) [])).1 =
    Some (Reservado (nueva_reserva 7 "A" 5 0)) ∧
  (clasificar 300000001 7 (mundo_inicial (sheet w1) [])).1 = Some Disponible.
Proof.
  intros w1.
  destruct (reservar_numero_queda_reservado 7 "A" 5 0 0
              (mundo_inicial sheet_vacia []) w1 NumeroReservadoExitosamente)
    as (_ & _ & Hres & Hdisp); [done|done|by vm_compute|].
  split; [apply Hres|apply Hdisp]; by vm_compute.
Defined.






(** A lease that lapses: once the clock has passed the expiry of a reservation
    just made, Confirm by its own seller is refused with "Número no está
    reservado", its sweep deleting the row, and the sales stay as they were;
    a Reserve of the number by any seller at such a time succeeds. *)
Theorem reserva_vencida_se_pierde (numero : Z)
    (vendedor comprador telefono vendedorB : string)
    (minutos now_limpieza now now_limpieza2 now2 minutosB : Z)
    (w w1 : Mundo) (msg : Mensaje) :
  fallos w = [] → numero ≠ 0%Z →
  reservar_numero numero vendedor minutos now_limpieza now w =
    (Some (true, msg), w1) →
  (now + timedelta_minutes minutos < now_limpieza2)%Z →
  (∃ w2,
     confirmar_venta numero comprador telefono vendedor now_limpieza2 now2 w1 =
       (Some (false, NumeroNoEstaReservado), w2) ∧
     ventas_worksheet (sheet w2) = ventas_worksheet (sheet w) ∧
     reservas_de numero (sheet w2) = []) ∧
  (∃ w2,
     reservar_numero numero vendedorB minutosB now_limpieza2 now2 w1 =
       (Some (true, NumeroReservadoExitosamente), w2) ∧
     reservas_de numero (sheet w2) =
       [nueva_reserva numero vendedorB minutosB now2]).
Proof.
  destruct w as [s fs tr av]. simpl. intros -> Hn Hres Hexp.
  apply reservar_numero_exito in Hres as (Hv & Hr & _ & ->).
  set (fila := nueva_reserva numero vendedor minutos now) in *.
  assert (Hvig : ¬ vigente now_limpieza2 fila).
  { unfold vigente, fila, nueva_reserva. simpl. lia. }
  pose proof Hr as Hr'.
  apply (dict_por_numero_None Reserva.numero) in Hr'; [|done].
  assert (Hrs : reservas_worksheet
                  (limpia now_limpieza2
                     (con_reserva (limpia now_limpieza s) fila)) =
                filter (vigente now_limpieza2)
                  (reservas_worksheet (limpia now_limpieza s))).
  { rewrite limpia_filter. simpl.
    rewrite filter_app, filter_cons, decide_False, filter_nil by done.
    apply app_nil_r. }
  assert (Hfilas : filas_de Reserva.numero numero
                     (reservas_worksheet
                        (limpia now_limpieza2
                           (con_reserva (limpia now_limpieza s) fila))) = []).
  { rewrite Hrs. by apply sin_filas_de_filter. }
  assert (Hd : dict_reservas
                 (reservas_worksheet
                    (limpia now_limpieza2
                       (con_reserva (limpia now_limpieza s) fila)))
                 !! numero = None).
  { unfold dict_reservas.
    by rewrite dict_por_numero_lookup, decide_False, Hfilas. }
  split.
  - rewrite confirmar_venta_ok. simpl. rewrite Hd.
    eexists. split; [done|]. simpl.
    split; [rewrite limpia_ventas; simpl; apply limpia_ventas|exact Hfilas].
  - rewrite reservar_numero_ok. simpl. rewrite limpia_ventas, Hv, Hd.
    eexists. split; [done|]. unfold reservas_de. simpl.
    rewrite filas_de_snoc_eq by done. by rewrite Hfilas.
Qed.

Lemma reserva_vencida_se_pierde_witness :
  let w1 := (reservar_numero 7 "A" 5 0 0 (mundo_inicial sheet_vacia [])).2 in
  (confirmar_venta 7 "X" "555" "A" 300000001 300000001 w1).1 =
    Some (false, NumeroNoEstaReservado) ∧
  (reservar_numero 7 "B" 5 300000001 300000001 w1).1 =
    Some (true, NumeroReservadoExitosamente).
Proof.
  intros w1.
  destruct (reserva_vencida_se_pierde 7 "A" "X" "555" "B" 5 0 0
              300000001 300000001 5 (mundo_inicial sheet_vacia []) w1
              NumeroReservadoExitosamente)
    as [(w2 & -> & _) (w3 & -> & _)];
    [done|done|by vm_compute|by vm_compute|done].
Defined.

(** ** The two mappings *)

(** When the reads succeed, the sold mapping holds for each number other than
    0 the last "ventas" row with that number, and the reserved mapping the
    last row in force with that number: duplicates are resolved to the later
    row without any notice, and a row whose number is 0 is in neither
    mapping.  So a number is a key exactly when some row (in force, for
    reservations) carries it. *)
Theorem obtener_numeros_ultima_fila (now : Z) (w : Mundo) :
  fallos w = [] →
  ∃ vendidos reservados w1 w2,
    obtener_numeros_vendidos w = (Some vendidos, w1) ∧
    obtener_numeros_reservados now w = (Some reservados, w2) ∧
    vendidos !! 0%Z = None ∧ reservados !! 0%Z = None ∧
    (∀ n, n ≠ 0%Z →
       vendidos !! n = last (ventas_de n (sheet w)) ∧
       reservados !! n =
         last (filter (vigente now) (reservas_de n (sheet w)))) ∧
    (∀ n, is_Some (vendidos !! n) ↔
          n ≠ 0%Z ∧ ∃ v, v ∈ ventas_worksheet (sheet w) ∧ Venta.numero v = n).
Proof.
  destruct w as [s fs tr av]. simpl. intros ->.
  rewrite obtener_numeros_vendidos_ok, obtener_numeros_reservados_ok.
  do 4 eexists. split; [done|]. split; [done|].
  unfold dict_ventas, dict_reservas.
  split; [apply dict_por_numero_0|]. split; [apply dict_por_numero_0|].
  split.
  - intros n Hn. rewrite !dict_por_numero_lookup, !decide_False by done.
    split; [done|]. rewrite limpia_filter. simpl. unfold reservas_de.
    by rewrite filas_de_vigentes.
  - intros n. split.
    + intros [v Hv]. apply dict_por_numero_Some in Hv as (Hn & Hnum & Hin).
      split; [done|]. by exists v.
    + intros (Hn & v & Hin & Hnum). by eapply dict_por_numero_is_Some.
Qed.

Lemma obtener_numeros_ultima_fila_witness :
  (obtener_numeros_vendidos mundo_ventas_repetidas).1 =
    Some {[ 7%Z := nueva_venta 7 "Y" "556" "B" 3 ]}.
Proof.
  destruct (obtener_numeros_ultima_fila 0 mundo_ventas_repetidas eq_refl)
    as (vendidos & reservados & w1 & w2 & Hv & _ & H0 & _ & Hn & Hdom).
  rewrite Hv. simpl. f_equal. apply map_eq. intros n.
  destruct (decide (n = 7%Z)) as [->|Hne].
  - rewrite lookup_singleton_eq. by destruct (Hn 7%Z) as [-> _].
  - rewrite lookup_singleton_ne by done.
    destruct (decide (n = 0%Z)) as [->|Hn0]; [done|].
    destruct (Hn n Hn0) as [-> _]. unfold ventas_de, filas_de. simpl.
    rewrite !filter_cons, filter_nil. simpl.
    rewrite !decide_False by congruence. done.
Defined.

(** ** Numbers the engine does not check *)

(** [reservar_numero] and [confirmar_venta] do not check the number.  Number
    0 is falsy in the two mappings, so it is never found sold or reserved:
    every Reserve of 0 succeeds and appends one more row, whatever rows for 0
    are already there, Confirm of 0 is always refused with "Número no está
    reservado", and 0 is always classified as available. *)
Theorem numero_cero_nunca_ocupado (vendedor comprador telefono : string)
    (minutos now_limpieza now : Z) (w : Mundo) :
  fallos w = [] →
  (∃ w',
     reservar_numero 0 vendedor minutos now_limpieza now w =
       (Some (true, NumeroReservadoExitosamente), w') ∧
     reservas_worksheet (sheet w') =
       filter (vigente now_limpieza) (reservas_worksheet (sheet w))
         ++ [nueva_reserva 0 vendedor minutos now]) ∧
  (∃ w',
     confirmar_venta 0 comprador telefono vendedor now_limpieza now w =
       (Some (false, NumeroNoEstaReservado), w') ∧
     ventas_worksheet (sheet w') = ventas_worksheet (sheet w)) ∧
  (clasificar now_limpieza 0 w).1 = Some Disponible.
Proof.
  destruct w as [s fs tr av]. simpl. intros ->.
  rewrite reservar_numero_ok, confirmar_venta_ok, clasificar_ok. simpl.
  unfold mostrar_grilla_numero, dict_ventas, dict_reservas.
  rewrite !dict_por_numero_0. split; [|split; [|done]].
  - eexists. split; [done|]. simpl. by rewrite limpia_filter.
  - eexists. split; [done|]. simpl. apply limpia_ventas.
Qed.

Lemma numero_cero_nunca_ocupado_witness :
  let w1 := (reservar_numero 0 "A" 5 0 0 (mundo_inicial sheet_vacia [])).2 in
  (reservar_numero 0 "B" 5 1 1 w1).1 =
    Some (true, NumeroReservadoExitosamente) ∧
  reservas_worksheet (sheet (reservar_numero 0 "B" 5 1 1 w1).2) =
    [nueva_reserva 0 "A" 5 0; nueva_reserva 0 "B" 5 1].
Proof.
  intros w1.
  destruct (numero_cero_nunca_ocupado "B" "X" "555" 5 1 1 w1)
    as ((w' & Hres & Hrs) & _); [by vm_compute|].
  rewrite Hres. unfold fst, snd. split; [done|]. rewrite Hrs. by vm_compute.
Defined.

(** ** [reservar_numero] under any fault schedule *)

Lemma reservas_append_row_run fila s fs tr av :
  reservas_append_row fila (mkMundo s fs tr av) =
  match fs with
  | true :: fs' => (None, mkMundo s fs' tr av)
  | _ =>
      (Some tt,
       mkMundo (con_reserva s fila) (tail fs)
         (tr ++ [(AppendReserva fila, con_reserva s fila)]) av)
  end.
Proof. desplegar. by destruct fs as [|[] fs]. Qed.

(** Whatever the store does, [reservar_numero] returns a result.  When it
    reports success it has appended exactly one row, the caller's, as its
    last write, after the deletions of its sweep; when it reports a refusal
    or an error it has appended nothing: its only writes are those
    deletions. *)
Theorem reservar_numero_con_fallos (numero : Z) (vendedor : string)
    (minutos now_limpieza now : Z) (w : Mundo) :
  let fila := nueva_reserva numero vendedor minutos now in
  ∃ ok msg w' s1 tr1,
    reservar_numero numero vendedor minutos now_limpieza now w =
      (Some (ok, msg), w') ∧
    conserva now_limpieza (sheet w) s1 ∧
    solo_borra_expiradas now_limpieza (sheet w) tr1 ∧
    if ok
    then msg = NumeroReservadoExitosamente ∧
         sheet w' = con_reserva s1 fila ∧
         traza w' = traza w ++ tr1 ++ [(AppendReserva fila, con_reserva s1 fila)]
    else sheet w' = s1 ∧ traza w' = traza w ++ tr1.
Proof.
  intros fila. destruct w as [s fs tr av]. simpl.
  unfold reservar_numero, try_except, bind.
  destruct (obtener_numeros_vendidos_spec s fs tr av) as (dv & fs1 & -> & _).
  destruct (obtener_numeros_reservados_spec now_limpieza s fs1 tr av)
    as (dr & s1 & fs2 & tr1 & av1 & -> & Hc & Htr & _).
  destruct (dv !! numero);
    [exists false; do 2 eexists; exists s1, tr1;
     split; [done|]; split; [done|]; split; [done|]; by split|].
  destruct (dr !! numero);
    [exists false; do 2 eexists; exists s1, tr1;
     split; [done|]; split; [done|]; split; [done|]; by split|].
  rewrite reservas_append_row_run. fold fila.
  destruct fs2 as [|[] fs2]; simpl.
  - exists true. do 2 eexists. exists s1, tr1.
    split; [done|]. split; [done|]. split; [done|]. simpl.
    by rewrite <- app_assoc.
  - exists false. do 2 eexists. exists s1, tr1.
    split; [done|]. split; [done|]. split; [done|]. by split.
  - exists true. do 2 eexists. exists s1, tr1.
    split; [done|]. split; [done|]. split; [done|]. simpl.
    by rewrite <- app_assoc.
Qed.

(** * Properties of the page *)

(** ** The numbers on offer, the grid and the sidebar counts *)

Lemma disponible_sii (numeros_vendidos : gmap Z Venta.t)
    (numeros_reservados : gmap Z Reserva.t) (numero : Z) :
  mostrar_grilla_numero numeros_vendidos numeros_reservados numero = Disponible
  ↔ numeros_vendidos !! numero = None ∧ numeros_reservados !! numero = None.
Proof.
  unfold mostrar_grilla_numero.
  destruct (numeros_vendidos !! numero), (numeros_reservados !! numero);
    split; try done; by intros [? ?].
Qed.

Lemma seqZ_1_100 : seqZ 1 100 = map (λ i, (Z.of_nat i + 1)%Z) (seq 0 100).
Proof. by vm_compute. Qed.

(** The select box of step 1 offers exactly the numbers of the green cells of
    the grid, in the order of the grid; they are numbers of 1..100, each
    offered once. *)
Theorem numeros_disponibles_son_las_verdes (numeros_vendidos : gmap Z Venta.t)
    (numeros_reservados : gmap Z Reserva.t) :
  numeros_disponibles numeros_vendidos numeros_reservados =
    map fst (filter (λ celda, celda.2 = Disponible)
               (grilla numeros_vendidos numeros_reservados)) ∧
  NoDup (numeros_disponibles numeros_vendidos numeros_reservados) ∧
  ∀ i, i ∈ numeros_disponibles numeros_vendidos numeros_reservados ↔
       (1 ≤ i ≤ 100)%Z ∧
       mostrar_grilla_numero numeros_vendidos numeros_reservados i = Disponible.
Proof.
  unfold numeros_disponibles, grilla. split; [|split].
  - rewrite seqZ_1_100. cbv zeta. generalize (seq 0 100). intros l.
    induction l as [|i l IH]; [done|]. simpl.
    rewrite !filter_cons. simpl. rewrite IH.
    destruct (decide (mostrar_grilla_numero numeros_vendidos numeros_reservados
                        (Z.of_nat i + 1) = Disponible)) as [Hd|Hd].
    + rewrite decide_True by (by apply disponible_sii). done.
    + rewrite decide_False; [done|]. intros H. by apply Hd, disponible_sii.
  - apply NoDup_filter, NoDup_seqZ.
  - intros i. rewrite list_elem_of_filter, elem_of_seqZ, disponible_sii.
    intuition lia.
Qed.

(** The occupied numbers among 1..100, counted. *)
Lemma length_numeros_disponibles (numeros_vendidos : gmap Z Venta.t)
    (numeros_reservados : gmap Z Reserva.t) :
  length (numeros_disponibles numeros_vendidos numeros_reservados) +
  size ((dom numeros_vendidos ∪ dom numeros_reservados)
          ∩ list_to_set (seqZ 1 100) : gset Z) = 100.
Proof.
  set (D := (dom numeros_vendidos ∪ dom numeros_reservados : gset Z)).
  set (P := λ i : Z, numeros_vendidos !! i = None ∧
                     numeros_reservados !! i = None).
  assert (Hlen : length (filter P (seqZ 1 100)) +
                 length (filter (λ i, ¬ P i) (seqZ 1 100)) = 100).
  { rewrite <- length_app, (filter_app_complement P (seqZ 1 100)).
    by rewrite length_seqZ. }
  assert (Hocc : size (D ∩ list_to_set (seqZ 1 100)) =
                 length (filter (λ i, ¬ P i) (seqZ 1 100))).
  { rewrite <- (size_list_to_set (C:=gset Z))
      by apply NoDup_filter, NoDup_seqZ.
    f_equal. apply set_eq. intros i.
    rewrite elem_of_intersection, !elem_of_list_to_set, list_elem_of_filter.
    unfold D, P. rewrite elem_of_union, !elem_of_dom.
    rewrite <- !not_eq_None_Some.
    destruct (numeros_vendidos !! i), (numeros_reservados !! i);
      intuition congruence. }
  unfold numeros_disponibles. fold P. lia.
Qed.

(** The sidebar's "Disponibles" never exceeds the number of numbers on offer,
    and equals it when no number is in both mappings and every key is a
    number of 1..100; a number both sold and reserved, or a key outside
    1..100, is subtracted without a cell becoming unavailable. *)
Theorem disponibles_count_y_oferta (numeros_vendidos : gmap Z Venta.t)
    (numeros_reservados : gmap Z Reserva.t) :
  (disponibles_count numeros_vendidos numeros_reservados ≤
   Z.of_nat (length (numeros_disponibles numeros_vendidos numeros_reservados)))%Z ∧
  (dom numeros_vendidos ## dom numeros_reservados →
   (∀ n, n ∈ dom numeros_vendidos ∪ dom numeros_reservados → (1 ≤ n ≤ 100)%Z) →
   disponibles_count numeros_vendidos numeros_reservados =
   Z.of_nat (length (numeros_disponibles numeros_vendidos numeros_reservados))).
Proof.
  pose proof (length_numeros_disponibles numeros_vendidos numeros_reservados)
    as Hlen.
  unfold disponibles_count, vendidos_count, reservados_count.
  rewrite <- !(size_dom (D:=gset Z)).
  set (D := dom numeros_vendidos) in *. set (R := dom numeros_reservados) in *.
  assert (H1 : size ((D ∪ R) ∩ list_to_set (seqZ 1 100)) ≤ size (D ∪ R))
    by apply subseteq_size, intersection_subseteq_l.
  assert (H2 : size (D ∪ R) ≤ size D + size R).
  { rewrite size_union_alt.
    assert (size (R ∖ D) ≤ size R)
      by by apply subseteq_size, subseteq_difference_l.
    lia. }
  split; [lia|]. intros Hdis Hran.
  rewrite (size_union D R Hdis) in *.
  assert (H3 : (D ∪ R) ∩ list_to_set (seqZ 1 100) = D ∪ R).
  { apply set_eq. intros n. rewrite elem_of_intersection, elem_of_list_to_set,
      elem_of_seqZ. specialize (Hran n). intuition lia. }
  rewrite H3, (size_union D R Hdis) in Hlen. lia.
Qed.

Lemma disponibles_count_y_oferta_witness :
  disponibles_count {[ 7%Z := nueva_venta 7 "X" "555" "A" 1 ]}
    {[ 8%Z := nueva_reserva 8 "B" 5 0 ]} = 98%Z ∧
  length (numeros_disponibles {[ 7%Z := nueva_venta 7 "X" "555" "A" 1 ]}
            {[ 8%Z := nueva_reserva 8 "B" 5 0 ]}) = 98.
Proof.
  destruct (disponibles_count_y_oferta
              {[ 7%Z := nueva_venta 7 "X" "555" "A" 1 ]}
              {[ 8%Z := nueva_reserva 8 "B" 5 0 ]}) as [_ Heq].
  assert (H98 : disponibles_count {[ 7%Z := nueva_venta 7 "X" "555" "A" 1 ]}
                  {[ 8%Z := nueva_reserva 8 "B" 5 0 ]} = 98%Z) by by vm_compute.
  split; [done|]. rewrite Heq in H98; [lia| |].
  - rewrite !dom_singleton_L. set_solver.
  - intros n. rewrite !dom_singleton_L. set_unfold. lia.
Defined.

Lemma en_rango_sublist s s' :
  ventas_worksheet s' = ventas_worksheet s →
  reservas_worksheet s' `sublist_of` reservas_worksheet s →
  en_rango s → en_rango s'.
Proof.
  intros Hv Hsub [Hrv Hrr]. split.
  - intros v. rewrite Hv. apply Hrv.
  - intros r Hr. apply Hrr. by eapply elem_of_sublist.
Qed.

Lemma ejecutar_en_rango op w :
  fallos w = [] → en_rango (sheet w) → operacion_en_rango op →
  en_rango (sheet (ejecutar op w)).
Proof.
  destruct w as [s fs tr av]. simpl. intros -> Hran Hop.
  assert (Hlimpia : ∀ now, en_rango (limpia now s)).
  { intros now. eapply en_rango_sublist;
      [apply limpia_ventas|apply limpia_sublist|done]. }
  destruct op as [numero vendedor minutos nl now
                 |numero comprador telefono vendedor nl now
                 |numero vendedor|now]; simpl in *.
  - rewrite reservar_numero_ok. simpl.
    destruct (dict_ventas _ !! numero); [apply Hlimpia|].
    destruct (dict_reservas _ !! numero); [apply Hlimpia|]. simpl.
    destruct (Hlimpia nl) as [Hrv Hrr]. split; [done|]. simpl.
    intros r [Hr| ->%list_elem_of_singleton]%elem_of_app; [by apply Hrr|done].
  - rewrite confirmar_venta_ok. simpl.
    destruct (dict_reservas _ !! numero) as [reserva|] eqn:Hd;
      [|apply Hlimpia].
    destruct (bool_decide (record_vendedor reserva ≠ VStr vendedor));
      [apply Hlimpia|]. simpl.
    apply dict_por_numero_Some in Hd as (_ & Hnum & Hin).
    destruct (Hlimpia nl) as [Hrv Hrr].
    eapply en_rango_sublist;
      [apply cancelada_ventas|apply cancelada_sublist|].
    split; simpl; [|done].
    intros v [Hv| ->%list_elem_of_singleton]%elem_of_app; [by apply Hrv|].
    simpl. rewrite <- Hnum. by apply Hrr.
  - rewrite cancelar_reserva_ok. simpl.
    eapply en_rango_sublist;
      [apply cancelada_ventas|apply cancelada_sublist|done].
  - rewrite limpiar_reservas_expiradas_ok. simpl. apply Hlimpia.
Qed.

Lemma ejecutar_todas_en_rango ops : ∀ w,
  fallos w = [] → una_fila_por_numero (sheet w) → en_rango (sheet w) →
  Forall operacion_en_rango ops →
  fallos (ejecutar_todas ops w) = [] ∧
  una_fila_por_numero (sheet (ejecutar_todas ops w)) ∧
  en_rango (sheet (ejecutar_todas ops w)).
Proof.
  induction ops as [|op ops IH]; intros w Hf Hinv Hran Hops; simpl; [done|].
  apply Forall_cons in Hops as [Hop Hops].
  destruct (ejecutar_una_fila op w Hf Hinv) as [Hf' Hinv'].
  apply IH; [done|done| |done]. by apply ejecutar_en_rango.
Qed.

(** On every sheet reached from the empty one by engine calls whose Reserve
    numbers are ticket numbers of 1..100 (worksheet calls succeeding), the
    data a page run reads has no number both sold and reserved and no key
    outside 1..100, so the sidebar's "Disponibles" is exactly the number of
    numbers on offer in step 1. *)
Theorem disponibles_count_en_corridas (ops : list Operacion) (now : Z) :
  Forall operacion_en_rango ops →
  ∃ numeros_vendidos numeros_reservados w',
    obtener_datos now (ejecutar_todas ops (mundo_inicial sheet_vacia [])) =
      (Some (numeros_vendidos, numeros_reservados), w') ∧
    dom numeros_vendidos ## dom numeros_reservados ∧
    (∀ n, n ∈ dom numeros_vendidos ∪ dom numeros_reservados →
          (1 ≤ n ≤ 100)%Z) ∧
    disponibles_count numeros_vendidos numeros_reservados =
    Z.of_nat (length (numeros_disponibles numeros_vendidos numeros_reservados)).
Proof.
  intros Hops.
  destruct (ejecutar_todas_en_rango ops (mundo_inicial sheet_vacia []))
    as (Hf & [Hinv _] & [Hrv Hrr]);
    [done|apply una_fila_sheet_vacia|split; intros x Hx; by apply elem_of_nil in Hx|done|].
  destruct (ejecutar_todas ops _) as [s fs tr av]. simpl in *. subst fs.
  unfold obtener_datos, bind.
  rewrite obtener_numeros_vendidos_ok, obtener_numeros_reservados_ok.
  do 3 eexists. split; [done|].
  assert (Hdis : dom (dict_ventas (ventas_worksheet s)) ##
                 dom (dict_reservas (reservas_worksheet (limpia now s)))).
  { apply elem_of_disjoint. intros n [v Hv]%elem_of_dom [r Hr]%elem_of_dom.
    apply dict_por_numero_Some in Hv as (Hn & Hvn & Hvin).
    apply dict_por_numero_Some in Hr as (_ & Hrn & Hrin).
    specialize (Hinv n Hn). unfold ventas_de, reservas_de in Hinv.
    assert (Hvf : v ∈ filas_de Venta.numero n (ventas_worksheet s))
      by by apply list_elem_of_filter.
    assert (Hrf : r ∈ filas_de Reserva.numero n (reservas_worksheet s)).
    { apply list_elem_of_filter. split; [done|].
      eapply elem_of_sublist; [done|apply (limpia_sublist now)]. }
    destruct (filas_de Venta.numero n _); [by apply elem_of_nil in Hvf|].
    destruct (filas_de Reserva.numero n _); [by apply elem_of_nil in Hrf|].
    simpl in Hinv. lia. }
  assert (Hran : ∀ n, n ∈ dom (dict_ventas (ventas_worksheet s)) ∪
                        dom (dict_reservas (reservas_worksheet (limpia now s)))
                 → (1 ≤ n ≤ 100)%Z).
  { intros n [[v Hv]%elem_of_dom|[r Hr]%elem_of_dom]%elem_of_union.
    - apply dict_por_numero_Some in Hv as (_ & <- & Hvin). by apply Hrv.
    - apply dict_por_numero_Some in Hr as (_ & <- & Hrin). apply Hrr.
      eapply elem_of_sublist; [done|apply (limpia_sublist now)]. }
  split; [done|]. split; [done|].
  by apply disponibles_count_y_oferta.
Qed.

Lemma disponibles_count_en_corridas_witness :
  let ops := [Reservar 7 "A" 5 0 0; Confirmar 7 "X" "555" "A" 1 1;
              Reservar 8 "B" 5 2 2] in
  ∃ numeros_vendidos numeros_reservados w',
    obtener_datos 3 (ejecutar_todas ops (mundo_inicial sheet_vacia [])) =
      (Some (numeros_vendidos, numeros_reservados), w') ∧
    disponibles_count numeros_vendidos numeros_reservados = 98%Z.
Proof.
  intros ops.
  destruct (disponibles_count_en_corridas ops 3)
    as (v & r & w' & Hdatos & _ & _ & Heq).
  { repeat constructor; simpl; lia. }
  exists v, r, w'. split; [done|].
  assert (Hcalc : obtener_datos 3
            (ejecutar_todas ops (mundo_inicial sheet_vacia [])) =
            (Some ({[ 7%Z := nueva_venta 7 "X" "555" "A" 1 ]},
                   {[ 8%Z := nueva_reserva 8 "B" 5 2 ]}),
             ejecutar_todas ops (mundo_inicial sheet_vacia [])))
    by by vm_compute.
  rewrite Hcalc in Hdatos. injection Hdatos as <- <- _. by vm_compute.
Defined.

(** ** The "Vender" tab *)

Lemma no_vacio_true s : no_vacio s = true ↔ s ≠ "".
Proof.
  unfold no_vacio. rewrite negb_true_iff, bool_decide_eq_false. done.
Qed.

(** Step 1 under any fault schedule.  The session takes a number only in a
    run in which [reservar_numero] appended the seller's row for that number
    (a five-minute lease) as its last write, and then the run ends in a
    rerun with the success message; in every other run the session is left
    as it was and nothing is appended.  Without a press of "Reservar" (or
    with no number on offer, or no seller name) no worksheet call is made at
    all. *)
Theorem proceso_venta_paso_reservar (vendedor : string)
    (numeros_vendidos : gmap Z Venta.t) (numeros_reservados : gmap Z Reserva.t)
    (f : Formulario) (now_limpieza now : Z) (ss : SessionState) (w : Mundo) :
  numero_reservado_activo ss = None →
  let fila := nueva_reserva (numero_elegido f) vendedor 5 now in
  ∃ c w' s1 tr1,
    proceso_venta vendedor numeros_vendidos numeros_reservados f
      now_limpieza now ss w = (Some c, w') ∧
    conserva now_limpieza (sheet w) s1 ∧
    solo_borra_expiradas now_limpieza (sheet w) tr1 ∧
    ((sesion c = con_numero_reservado ss (Some (numero_elegido f)) ∧
      carteles c = [Success NumeroReservadoExitosamente] ∧ rerun c = true ∧
      vendedor ≠ "" ∧ boton_reservar f = true ∧
      sheet w' = con_reserva s1 fila ∧
      traza w' = traza w ++ tr1 ++ [(AppendReserva fila, con_reserva s1 fila)])
     ∨
     (sesion c = ss ∧ sheet w' = s1 ∧ traza w' = traza w ++ tr1)) ∧
    (vendedor = "" ∨ boton_reservar f = false ∨
     numeros_disponibles numeros_vendidos numeros_reservados = [] →
     w' = w ∧ sesion c = ss ∧ rerun c = false).
Proof.
  intros Hact fila.
  assert (Hnada : ∀ cs,
    ∃ c w' s1 tr1,
      (Some (mkCorrida ss cs false), w) = (Some c, w') ∧
      conserva now_limpieza (sheet w) s1 ∧
      solo_borra_expiradas now_limpieza (sheet w) tr1 ∧
      ((sesion c = con_numero_reservado ss (Some (numero_elegido f)) ∧
        carteles c = [Success NumeroReservadoExitosamente] ∧ rerun c = true ∧
        vendedor ≠ "" ∧ boton_reservar f = true ∧
        sheet w' = con_reserva s1 fila ∧
        traza w' = traza w ++ tr1 ++ [(AppendReserva fila, con_reserva s1 fila)])
       ∨ (sesion c = ss ∧ sheet w' = s1 ∧ traza w' = traza w ++ tr1)) ∧
      (vendedor = "" ∨ boton_reservar f = false ∨
       numeros_disponibles numeros_vendidos numeros_reservados = [] →
       w' = w ∧ sesion c = ss ∧ rerun c = false)).
  { intros cs. exists (mkCorrida ss cs false), w, (sheet w), [].
    split; [done|]. split; [apply conserva_refl|].
    split; [by intros es Hes; apply elem_of_nil in Hes|].
    split; [right; by rewrite app_nil_r|done]. }
  unfold proceso_venta. rewrite Hact.
  destruct (no_vacio vendedor) eqn:Hven; [|apply Hnada].
  apply no_vacio_true in Hven.
  unfold paso_reservar.
  destruct (numeros_disponibles _ _) as [|n ns] eqn:Hdisp; [apply Hnada|].
  destruct (boton_reservar f) eqn:Hboton; [|apply Hnada].
  unfold bind.
  destruct (reservar_numero_con_fallos (numero_elegido f) vendedor 5
              now_limpieza now w)
    as (ok & msg & w' & s1 & tr1 & -> & Hc & Htr & Hok).
  fold fila in Hok. simpl.
  destruct ok; simpl.
  - destruct Hok as (-> & Hs & Ht).
    do 2 eexists. exists s1, tr1. split; [done|]. split; [done|].
    split; [done|]. split; [by left|]. intros [?|[?|?]]; done.
  - destruct Hok as (Hs & Ht).
    do 2 eexists. exists s1, tr1. split; [done|]. split; [done|].
    split; [done|]. split; [by right|]. intros [?|[?|?]]; done.
Qed.

Lemma proceso_venta_paso_reservar_witness :
  (proceso_venta "A" ∅ ∅ formulario_reservar_7 0 0 sesion_inicial
     (mundo_inicial sheet_vacia [])).1 =
    Some (mkCorrida (con_numero_reservado sesion_inicial (Some 7%Z))
            [Success NumeroReservadoExitosamente] true).
Proof.
  destruct (proceso_venta_paso_reservar "A" ∅ ∅ formulario_reservar_7 0 0
              sesion_inicial (mundo_inicial sheet_vacia []) eq_refl)
    as (c & w' & s1 & tr1 & Hres & _ & _ & _ & _).
  rewrite Hres. apply (f_equal fst) in Hres. simpl in Hres.
  rewrite <- Hres. by vm_compute.
Defined.

(** [cancelar_reserva] never touches the sales, whatever the store does. *)
Lemma cancelar_reserva_ventas numero vendedor w :
  ∃ w', cancelar_reserva numero vendedor w = (Some tt, w') ∧
        ventas_worksheet (sheet w') = ventas_worksheet (sheet w).
Proof.
  destruct w as [s fs tr av].
  destruct (cancelar_reserva_spec numero vendedor s fs tr av)
    as (fs' & [->| ->]); eexists; (split; [done|]); simpl; [done|].
  apply cancelada_ventas.
Qed.

(** Step 2 under any fault schedule, for a session holding [numero].  A
    run ends in one of three ways.  (a) "Confirmar" was pressed with both
    fields filled and [confirmar_venta] returned success: the session is
    cleared, the success message is shown, the run is restarted, and the
    sales table has gained the one row built from the session's number and
    the form's fields.  (b) Otherwise, when "Cancelar" was pressed:
    [cancelar_reserva] is called, the session is cleared, "Reserva
    cancelada" is shown and the run is restarted; the sales are as they
    were.  (c) Otherwise the session still holds the number, there is no
    restart and the sales are as they were.  So the session leaves step 2
    only through an accepted Confirm or a press of "Cancelar": a refused
    Confirm, without "Cancelar", leaves it in place.  With no press of
    "Cancelar", and either no press of "Confirmar" or an empty name or
    telephone, no worksheet call is made. *)
Theorem proceso_venta_paso_confirmar (vendedor : string)
    (numeros_vendidos : gmap Z Venta.t) (numeros_reservados : gmap Z Reserva.t)
    (f : Formulario) (now_limpieza now : Z) (ss : SessionState) (w : Mundo)
    (numero : Z) :
  numero_reservado_activo ss = Some numero → vendedor ≠ "" →
  let venta :=
    nueva_venta numero (nombre_comprador f) (telefono f) vendedor now in
  ∃ c w',
    proceso_venta vendedor numeros_vendidos numeros_reservados f
      now_limpieza now ss w = (Some c, w') ∧
    ((confirmar f = true ∧ nombre_comprador f ≠ "" ∧ telefono f ≠ "" ∧
      confirmar_venta numero (nombre_comprador f) (telefono f) vendedor
        now_limpieza now w =
        (Some (true, VentaConfirmadaExitosamente), w') ∧
      c = mkCorrida (con_numero_reservado ss None)
            [Success VentaConfirmadaExitosamente] true ∧
      ventas_worksheet (sheet w') = ventas_worksheet (sheet w) ++ [venta]) ∨
     (cancelar f = true ∧
      sesion c = con_numero_reservado ss None ∧ rerun c = true ∧
      last (carteles c) = Some InfoReservaCancelada ∧
      ventas_worksheet (sheet w') = ventas_worksheet (sheet w)) ∨
     (cancelar f = false ∧ sesion c = ss ∧ rerun c = false ∧
      ventas_worksheet (sheet w') = ventas_worksheet (sheet w))) ∧
    ((sesion c = con_numero_reservado ss None ∧ rerun c = true) ∨
     (sesion c = ss ∧ rerun c = false ∧ cancelar f = false ∧
      ventas_worksheet (sheet w') = ventas_worksheet (sheet w))) ∧
    (ventas_worksheet (sheet w') = ventas_worksheet (sheet w) ∨
     (ventas_worksheet (sheet w') = ventas_worksheet (sheet w) ++ [venta] ∧
      confirmar f = true ∧ nombre_comprador f ≠ "" ∧ telefono f ≠ "" ∧
      sesion c = con_numero_reservado ss None ∧
      carteles c = [Success VentaConfirmadaExitosamente])) ∧
    (cancelar f = false →
     (∀ msg w1,
        confirmar_venta numero (nombre_comprador f) (telefono f) vendedor
          now_limpieza now w = (Some (false, msg), w1) →
        sesion c = ss ∧ rerun c = false)) ∧
    (cancelar f = false →
     confirmar f = false ∨ nombre_comprador f = "" ∨ telefono f = "" →
     w' = w ∧ sesion c = ss).
Proof.
  intros Hact Hven venta. unfold proceso_venta. rewrite Hact.
  rewrite (proj2 (no_vacio_true vendedor)) by done.
  unfold paso_confirmar.
  (* what follows a Confirm that did not end the run *)
  assert (Hresto : ∀ cs w1,
    ventas_worksheet (sheet w1) = ventas_worksheet (sheet w) →
    ∃ c w',
      (if cancelar f
       then cancelar_reserva numero vendedor ;*
            ret (mkCorrida (con_numero_reservado ss None)
                   (cs ++ [InfoReservaCancelada]) true)
       else ret (mkCorrida ss cs false)) w1 = (Some c, w') ∧
      ((cancelar f = true ∧
        sesion c = con_numero_reservado ss None ∧ rerun c = true ∧
        last (carteles c) = Some InfoReservaCancelada ∧
        ventas_worksheet (sheet w') = ventas_worksheet (sheet w)) ∨
       (cancelar f = false ∧ sesion c = ss ∧ rerun c = false ∧
        ventas_worksheet (sheet w') = ventas_worksheet (sheet w))) ∧
      ventas_worksheet (sheet w') = ventas_worksheet (sheet w) ∧
      (cancelar f = false → w' = w1 ∧ sesion c = ss ∧ rerun c = false)).
  { intros cs w1 Hv1. destruct (cancelar f).
    - unfold bind.
      destruct (cancelar_reserva_ventas numero vendedor w1) as (w' & -> & Hv').
      do 2 eexists. split; [done|]. simpl.
      split; [left; rewrite last_snoc; repeat split; congruence|].
      split; [congruence|done].
    - do 2 eexists. split; [done|]. simpl. split; [by right|]. done. }
  assert (Hfin : ∀ cs w1 (P : Prop),
    ventas_worksheet (sheet w1) = ventas_worksheet (sheet w) →
    (cancelar f = false → w1 = w ∨ P) →
    ∃ c w',
      (if cancelar f
       then cancelar_reserva numero vendedor ;*
            ret (mkCorrida (con_numero_reservado ss None)
                   (cs ++ [InfoReservaCancelada]) true)
       else ret (mkCorrida ss cs false)) w1 = (Some c, w') ∧
      ((cancelar f = true ∧
        sesion c = con_numero_reservado ss None ∧ rerun c = true ∧
        last (carteles c) = Some InfoReservaCancelada ∧
        ventas_worksheet (sheet w') = ventas_worksheet (sheet w)) ∨
       (cancelar f = false ∧ sesion c = ss ∧ rerun c = false ∧
        ventas_worksheet (sheet w') = ventas_worksheet (sheet w))) ∧
      ((sesion c = con_numero_reservado ss None ∧ rerun c = true) ∨
       (sesion c = ss ∧ rerun c = false ∧ cancelar f = false ∧
        ventas_worksheet (sheet w') = ventas_worksheet (sheet w))) ∧
      ventas_worksheet (sheet w') = ventas_worksheet (sheet w) ∧
      (cancelar f = false → sesion c = ss ∧ rerun c = false) ∧
      (cancelar f = false → (w' = w ∨ P) ∧ sesion c = ss)).
  { intros cs w1 P Hv1 Hw1.
    destruct (Hresto cs w1 Hv1) as (c & w' & Hrun & Hcasos & Hv & Hw).
    exists c, w'. split; [done|]. split; [done|].
    split; [destruct Hcasos as [(?&?&?&?&?)|(?&?&?&?)]; [by left|by right]|].
    split; [done|]. split; [intros Hcan; by destruct (Hw Hcan) as (_ & ? & ?)|].
    intros Hcan. destruct (Hw Hcan) as (-> & ? & _). split; [|done].
    by apply Hw1. }
  unfold bind at 1.
  destruct (confirmar f) eqn:Hconf.
  2:{ destruct (Hfin [] w False eq_refl) as (c & w' & Hrun & H3 & H2 & Hv & Hr & Hw);
        [by left|].
      exists c, w'. split; [exact Hrun|]. split; [by right|]. split; [done|].
      split; [by left|]. split; [intros Hcan msg w1 _; by apply Hr|].
      intros Hcan _. destruct (Hw Hcan) as [[?|[]] ?]. done. }
  destruct (no_vacio (nombre_comprador f) && no_vacio (telefono f)) eqn:Hcampos.
  2:{ destruct (Hfin [ErrorCompletaCampos] w False eq_refl)
        as (c & w' & Hrun & H3 & H2 & Hv & Hr & Hw); [by left|].
      exists c, w'. split; [exact Hrun|]. split; [by right|]. split; [done|].
      split; [by left|]. split; [intros Hcan msg w1 _; by apply Hr|].
      intros Hcan _. destruct (Hw Hcan) as [[?|[]] ?]. done. }
  apply andb_true_iff in Hcampos as [Hnom%no_vacio_true Htel%no_vacio_true].
  unfold bind at 1.
  destruct w as [s fs tr av].
  destruct (confirmar_venta_spec numero (nombre_comprador f) (telefono f)
              vendedor now_limpieza now s fs tr av)
    as (s1 & fs' & tr1 & av' & (Hv1 & _ & _) & _ & Hcasos).
  fold venta in Hcasos.
  destruct Hcasos as [[msg Hcv]|(reserva & _ & _ & [Hcv|Hcv])];
    rewrite Hcv; simpl.
  - destruct (Hfin [Error msg] (mkMundo s1 fs' (tr ++ tr1) av') True Hv1)
      as (c & w' & Hrun & H3 & H2 & Hv & Hr & Hw); [by right|].
    exists c, w'. split; [exact Hrun|]. split; [by right|]. split; [done|].
    split; [by left|]. split; [intros Hcan msg' w1 _; by apply Hr|].
    intros _ [?|[?|?]]; done.
  - do 2 eexists. split; [reflexivity|]. simpl.
    split; [left; repeat split; try done; by rewrite Hv1|].
    split; [by left|]. split; [right; by rewrite Hv1|].
    split; [intros _ msg' w1 [=]|].
    intros _ [?|[?|?]]; done.
  - do 2 eexists. split; [reflexivity|]. simpl.
    split; [left; repeat split; try done;
            by rewrite cancelada_ventas; simpl; rewrite Hv1|].
    split; [by left|].
    split; [right; by rewrite cancelada_ventas; simpl; rewrite Hv1|].
    split; [intros _ msg' w1 [=]|].
    intros _ [?|[?|?]]; done.
Qed.

Lemma proceso_venta_paso_confirmar_witness :
  ∃ c w',
    proceso_venta "A" ∅ {[ 7%Z := nueva_reserva 7 "A" 5 0 ]}
      formulario_confirmar 10 10 sesion_con_7 mundo_reservado_7 =
      (Some c, w') ∧
    sesion c = con_numero_reservado sesion_con_7 None ∧
    ventas_worksheet (sheet w') = [nueva_venta 7 "X" "555" "A" 10].
Proof.
  destruct (proceso_venta_paso_confirmar "A" ∅
              {[ 7%Z := nueva_reserva 7 "A" 5 0 ]} formulario_confirmar 10 10
              sesion_con_7 mundo_reservado_7 7 eq_refl)
    as (c & w' & Hrun & _); [done|].
  exists c, w'. split; [done|].
  assert (Hcalc : proceso_venta "A" ∅ {[ 7%Z := nueva_reserva 7 "A" 5 0 ]}
            formulario_confirmar 10 10 sesion_con_7 mundo_reservado_7 =
            (Some (mkCorrida (con_numero_reservado sesion_con_7 None)
                     [Success VentaConfirmadaExitosamente] true),
             (confirmar_venta 7 "X" "555" "A" 10 10 mundo_reservado_7).2))
    by by vm_compute.
  rewrite Hcalc in Hrun. injection Hrun as <- <-. split; [done|by vm_compute].
Defined.

(** ** A session whose lease has lapsed *)

(** A page run (worksheet calls succeeding) for a session that holds
    [numero] while the sheet has no reservation in force for it, the lease
    having lapsed or the row being gone: the sidebar note says nothing and
    does not clear the session, which therefore stays in step 2; a press of
    "Confirmar" with the fields filled is answered "Número no está
    reservado" and appends no sale; and unless "Cancelar" is pressed the
    session still holds the number after the run. *)
Theorem corrida_pagina_reserva_vencida (vendedor : string) (f : Formulario)
    (now_datos now_info now_limpieza now : Z) (ss : SessionState) (w : Mundo)
    (numero : Z) :
  fallos w = [] → vendedor ≠ "" →
  numero_reservado_activo ss = Some numero →
  (∀ r, r ∈ reservas_worksheet (sheet w) → Reserva.numero r = numero →
        ¬ vigente now_datos r) →
  cancelar f = false →
  ∃ c w',
    corrida_pagina vendedor f now_datos now_info now_limpieza now ss w =
      (Some c, w') ∧
    sesion c = ss ∧ rerun c = false ∧
    ventas_worksheet (sheet w') = ventas_worksheet (sheet w) ∧
    carteles c =
      (if confirmar f then
         if no_vacio (nombre_comprador f) && no_vacio (telefono f)
         then [Error NumeroNoEstaReservado] else [ErrorCompletaCampos]
       else []).
Proof.
  destruct w as [s fs tr av]. simpl. intros -> Hven Hact Hno Hcan.
  unfold corrida_pagina, obtener_datos, bind.
  rewrite obtener_numeros_vendidos_ok, obtener_numeros_reservados_ok.
  unfold bind, ret. simpl.
  assert (Hd : dict_reservas (reservas_worksheet (limpia now_datos s))
                 !! numero = None) by by apply dict_reservas_limpia_None.
  unfold info_reserva_actual. rewrite Hact, Hd. simpl.
  unfold proceso_venta. rewrite Hact.
  rewrite (proj2 (no_vacio_true vendedor)) by done.
  unfold paso_confirmar, bind. rewrite Hcan.
  destruct (confirmar f);
    [|do 2 eexists; (split; [reflexivity|]); simpl; split; [done|];
      split; [done|]; split; [apply limpia_ventas|done]].
  destruct (no_vacio (nombre_comprador f) && no_vacio (telefono f));
    [|do 2 eexists; (split; [reflexivity|]); simpl; split; [done|];
      split; [done|]; split; [apply limpia_ventas|done]].
  rewrite confirmar_venta_ok. simpl.
  assert (Hd2 : dict_reservas
                  (reservas_worksheet (limpia now_limpieza (limpia now_datos s)))
                  !! numero = None).
  { apply dict_reservas_limpia_None. intros r Hr Hnum _.
    rewrite limpia_filter in Hr. simpl in Hr.
    apply list_elem_of_filter in Hr as [Hvig Hr]. by apply (Hno r). }
  rewrite Hd2. simpl. do 2 eexists. split; [done|]. simpl.
  split; [done|]. split; [done|]. split; [|done].
  by rewrite !limpia_ventas.
Qed.

Lemma corrida_pagina_reserva_vencida_witness :
  ∃ w',
    corrida_pagina "A" formulario_confirmar 101 101 101 101 sesion_con_7
      mundo_expirado_7 =
    (Some (mkCorrida sesion_con_7 [Error NumeroNoEstaReservado] false), w').
Proof.
  destruct (corrida_pagina_reserva_vencida "A" formulario_confirmar
              101 101 101 101 sesion_con_7 mundo_expirado_7 7)
    as (c & w' & Hrun & Hses & Hre & _ & Hcar);
    [done|done|done| |done|].
  - intros r ->%list_elem_of_singleton _. by vm_compute.
  - exists w'. rewrite Hrun. destruct c as [se ca re]. simpl in *.
    by subst.
Defined.

(** ** The auto-refresh check *)

(** The check reads the seconds field of the elapsed time, not the total.
    For an elapsed time from 0 up to a day the run is restarted exactly when
    at least 31 whole seconds have passed; whole days are ignored, so the
    outcome repeats with period one day; and a clock reading up to a day
    (less 31 seconds) earlier than the stored one also restarts the run. *)
Theorem auto_actualizar_umbral (now now' : Z) (ss : SessionState) :
  let d := (now - ultima_actualizacion ss)%Z in
  ((0 ≤ d < 86400000000)%Z →
   ((auto_actualizar true now now' ss).2 = true ↔ (31000000 ≤ d)%Z)) ∧
  (∀ k, timedelta_seconds (d + k * 86400000000) = timedelta_seconds d) ∧
  ((-86369000000 ≤ d < 0)%Z → (auto_actualizar true now now' ss).2 = true) ∧
  ((auto_actualizar true now now' ss).2 = true →
   ultima_actualizacion (auto_actualizar true now now' ss).1 = now').
Proof.
  intros d. unfold auto_actualizar. fold d.
  assert (Hrun : ∀ b : bool,
            (if b then (mkSessionState (ss_vendedor ss) now'
                          (numero_reservado ss) (tiempo_reserva ss), true)
             else (ss, false)).2 = true ↔ b = true)
    by (intros []; simpl; split; done).
  split; [|split; [|split]].
  - intros Hd. rewrite Hrun. unfold timedelta_seconds.
    rewrite Z.mod_small by lia. rewrite Z.gtb_ltb, Z.ltb_lt.
    split; intros H.
    + destruct (decide (31000000 ≤ d)%Z) as [|Hlt]; [done|]. exfalso.
      assert (d / 1000000 ≤ 30)%Z; [|lia].
      apply Z.lt_succ_r. apply Z.div_lt_upper_bound; lia.
    + assert (31 ≤ d / 1000000)%Z; [|lia].
      apply Z.div_le_lower_bound; lia.
  - intros k. unfold timedelta_seconds. by rewrite Z.mod_add.
  - intros Hd. apply Hrun. unfold timedelta_seconds.
    rewrite Z.gtb_ltb, Z.ltb_lt.
    replace d with ((d + 86400000000) + (-1) * 86400000000)%Z by lia.
    rewrite Z.mod_add by done. rewrite Z.mod_small by lia.
    assert (31 ≤ (d + 86400000000) / 1000000)%Z; [|lia].
    apply Z.div_le_lower_bound; lia.
  - destruct (timedelta_seconds d >? 30)%Z; simpl; done.
Qed.

Lemma auto_actualizar_umbral_witness :
  (auto_actualizar true 30999999 30999999 sesion_inicial).2 = false ∧
  (auto_actualizar true 31000000 31000000 sesion_inicial).2 = true ∧
  (auto_actualizar true 86410000000 86410000000 sesion_inicial).2 = false.
Proof.
  destruct (auto_actualizar_umbral 30999999 30999999 sesion_inicial)
    as (H1 & _).
  destruct (auto_actualizar_umbral 31000000 31000000 sesion_inicial)
    as (H2 & _).
  split; [|split].
  - apply not_true_is_false. intros E.
    apply H1 in E; [simpl in E; lia|simpl; lia].
  - apply H2; simpl; lia.
  - by vm_compute.
Defined.

(** * Further properties of runs *)

(** Each call, whatever the store does, leaves the sale rows it found as a
    prefix of the sales table. *)
Lemma ejecutar_ventas_prefijo op w :
  ventas_worksheet (sheet w) `prefix_of` ventas_worksheet (sheet (ejecutar op w)).
Proof.
  destruct op as [numero vendedor minutos nl now
                 |numero comprador telefono vendedor nl now
                 |numero vendedor|now]; simpl.
  - destruct (reservar_numero_con_fallos numero vendedor minutos nl now w)
      as (ok & msg & w' & s1 & tr1 & -> & (Hv & _ & _) & _ & Hok).
    simpl. destruct ok.
    + destruct Hok as (_ & -> & _). simpl. by rewrite Hv.
    + destruct Hok as (-> & _). by rewrite Hv.
  - destruct w as [s fs tr av].
    destruct (confirmar_venta_spec numero comprador telefono vendedor nl now
                s fs tr av)
      as (s1 & fs' & tr1 & av' & (Hv & _ & _) & _ & Hcasos).
    destruct Hcasos as [[msg ->]|(reserva & _ & _ & [->| ->])]; simpl.
    + by rewrite Hv.
    + rewrite Hv. by apply prefix_app_r.
    + rewrite cancelada_ventas. simpl. rewrite Hv. by apply prefix_app_r.
  - destruct (cancelar_reserva_ventas numero vendedor w) as (w' & -> & Hv).
    simpl. by rewrite Hv.
  - destruct w as [s fs tr av].
    destruct (limpiar_reservas_expiradas_spec now s fs tr av)
      as (s' & fs' & tr' & av' & -> & (Hv & _ & _) & _).
    simpl. by rewrite Hv.
Qed.

(** No sequence of engine calls, under any fault schedule, deletes, changes
    or reorders a sale row: the sales table only grows at its end.  So a
    number that is a key of the sold mapping stays one, and Reserve of it is
    refused with "Número ya vendido" after any such sequence once the store
    answers again. *)
Theorem ventas_solo_crece (ops : list Operacion) (w : Mundo) :
  ventas_worksheet (sheet w) `prefix_of`
    ventas_worksheet (sheet (ejecutar_todas ops w)) ∧
  ∀ numero venta,
    numero ≠ 0%Z → venta ∈ ventas_worksheet (sheet w) →
    Venta.numero venta = numero →
    is_Some (dict_ventas (ventas_worksheet (sheet (ejecutar_todas ops w)))
               !! numero) ∧
    ∀ vendedor minutos now_limpieza now tr av, ∃ w',
      reservar_numero numero vendedor minutos now_limpieza now
        (mkMundo (sheet (ejecutar_todas ops w)) [] tr av) =
        (Some (false, NumeroYaVendido), w').
Proof.
  assert (Hpre : ventas_worksheet (sheet w) `prefix_of`
                   ventas_worksheet (sheet (ejecutar_todas ops w))).
  { revert w. induction ops as [|op ops IH]; intros w; simpl; [done|].
    etrans; [apply ejecutar_ventas_prefijo|apply IH]. }
  split; [done|]. intros numero venta Hn Hin Hnum.
  assert (Hin' : venta ∈ ventas_worksheet (sheet (ejecutar_todas ops w))).
  { destruct Hpre as [k ->]. apply elem_of_app. by left. }
  pose proof (dict_por_numero_is_Some Venta.numero _ _ _ Hn Hin' Hnum) as Hd.
  split; [done|]. intros vendedor minutos nl now tr av.
  rewrite reservar_numero_ok. simpl. destruct Hd as [v Hv].
  unfold dict_ventas. rewrite Hv. by eexists.
Qed.

Lemma ventas_solo_crece_witness :
  let ops := [Cancelar 7 "A"; Limpiar 1000000000; Reservar 7 "B" 5 20 20;
              Confirmar 7 "Y" "556" "B" 30 30] in
  ventas_worksheet (sheet (ejecutar_todas ops mundo_vendido_7)) =
    [nueva_venta 7 "X" "555" "A" 1] ∧
  is_Some (dict_ventas
             (ventas_worksheet (sheet (ejecutar_todas ops mundo_vendido_7)))
             !! 7%Z).
Proof.
  intros ops. split; [by vm_compute|].
  destruct (ventas_solo_crece ops mundo_vendido_7) as [_ Hsold].
  apply (Hsold 7%Z (nueva_venta 7 "X" "555" "A" 1)); [done| |done].
  apply list_elem_of_here.
Defined.

(** On every sheet reached from the empty one by engine calls whose worksheet
    calls all succeed, a number other than 0 has at most one reservation row,
    in force or not, and none at all once it has a sale row. *)
Theorem una_reserva_por_numero (ops : list Operacion) (numero : Z) :
  numero ≠ 0%Z →
  let s := sheet (ejecutar_todas ops (mundo_inicial sheet_vacia [])) in
  length (reservas_de numero s) ≤ 1 ∧
  (ventas_de numero s ≠ [] → reservas_de numero s = []).
Proof.
  intros Hn s.
  destruct (ejecutar_todas_una_fila ops (mundo_inicial sheet_vacia []))
    as [_ [Hinv _]]; [done|apply una_fila_sheet_vacia|].
  fold s in Hinv. specialize (Hinv numero Hn).
  split; [lia|]. intros Hv.
  destruct (ventas_de numero s); [done|].
  destruct (reservas_de numero s); [done|]. simpl in Hinv. lia.
Qed.

Lemma una_reserva_por_numero_witness :
  let ops := [Reservar 7 "A" 5 0 0; Reservar 7 "B" 5 1 1;
              Reservar 7 "A" 5 2 2] in
  reservas_de 7 (sheet (ejecutar_todas ops (mundo_inicial sheet_vacia []))) =
    [nueva_reserva 7 "A" 5 0] ∧
  length
    (reservas_de 7 (sheet (ejecutar_todas ops (mundo_inicial sheet_vacia []))))
    ≤ 1.
Proof.
  intros ops. split; [by vm_compute|].
  by destruct (una_reserva_por_numero ops 7) as [Hlen _].
Defined.

(** [confirmar_venta] never looks at the sales table.  Whenever the last
    reservation in force for the number is the caller's (its seller cell
    equals the caller's name, the test of line 162), Confirm succeeds and
    appends a sale row, also when the number already has one; the sales then
    hold one row more for the number than before. *)
Theorem confirmar_venta_no_mira_ventas (numero : Z)
    (comprador telefono vendedor : string) (now_limpieza now : Z)
    (w : Mundo) (reserva : Reserva.t) :
  fallos w = [] → numero ≠ 0%Z →
  last (filter (vigente now_limpieza) (reservas_de numero (sheet w))) =
    Some reserva →
  record_vendedor reserva = VStr vendedor →
  let venta := nueva_venta numero comprador telefono vendedor now in
  ∃ w',
    confirmar_venta numero comprador telefono vendedor now_limpieza now w =
      (Some (true, VentaConfirmadaExitosamente), w') ∧
    ventas_worksheet (sheet w') = ventas_worksheet (sheet w) ++ [venta] ∧
    ventas_de numero (sheet w') = ventas_de numero (sheet w) ++ [venta].
Proof.
  destruct w as [s fs tr av]. intros Hf Hn Hlast Hven venta.
  simpl in *. subst fs.
  rewrite confirmar_venta_ok. simpl.
  unfold dict_reservas. rewrite dict_por_numero_lookup, decide_False by done.
  rewrite limpia_filter. simpl. unfold reservas_de in Hlast.
  rewrite filas_de_vigentes, Hlast.
  rewrite bool_decide_eq_false_2 by (by intros []).
  eexists. split; [done|]. simpl. fold venta.
  unfold ventas_de. rewrite cancelada_ventas. simpl.
  split; [done|]. by rewrite filas_de_snoc_eq.
Qed.

Lemma confirmar_venta_no_mira_ventas_witness :
  ventas_worksheet
    (sheet (confirmar_venta 7 "Y" "556" "A" 10 10
              mundo_vendido_y_reservado_7).2) =
  [nueva_venta 7 "X" "555" "B" 5; nueva_venta 7 "Y" "556" "A" 10].
Proof.
  destruct (confirmar_venta_no_mira_ventas 7 "Y" "556" "A" 10 10
              mundo_vendido_y_reservado_7 (nueva_reserva 7 "A" 5 0))
    as (w' & Hres & Hv & _); [done|done|by vm_compute|done|].
  rewrite Hres. unfold snd. by rewrite Hv.
Defined.

(** * The page after a Reserve *)


